(** * Natural-language-to-SQL layer of the data explorer (src/app.js)

    A shallow embedding of the [DataExplorer] class of [src/app.js]: the
    rule-based SQL synthesizer [generateSQLWithPatterns], the column
    resolvers [findColumnInQuestion] and [findSecondColumnInQuestion], the
    value extractors [extractNumber] and [extractQuotedValue], table
    creation [createTableFromData] and the chart decision
    [determineChartType].

    Conventions of the embedding.
    - A JavaScript string is a [string]: a sequence of 8-bit code units read
      as Latin-1 code points.  [toLowerCase] is exact on that range.
    - [undefined] and [null] results are [None]; JavaScript truthiness is
      written out wherever the source branches on a value.
    - A method that can throw returns a [result]. *)

From Stdlib Require Import Bool List Arith NArith ZArith Lia.
From Stdlib Require Import Ascii String.
From Stdlib Require Import DecimalString DecimalPos DecimalN.
Import ListNotations.

Local Open Scope string_scope.
Local Open Scope bool_scope.

(* ================================================================== *)
(** ** JavaScript strings *)

Module JS.

Definition code (c : ascii) : N := N_of_ascii c.

(** The double quote character (code unit 34). *)
Definition DQ : ascii := ascii_of_N 34.
(** The single quote character (code unit 39). *)
Definition SQ : ascii := ascii_of_N 39.

Definition inRange (lo hi : N) (c : ascii) : bool :=
  (lo <=? code c)%N && (code c <=? hi)%N.

(** [String.prototype.toLowerCase] on one Latin-1 code unit: [A-Z] and the
    accented capitals U+00C0..U+00DE (the multiplication sign U+00D7
    apart) move up by 32, everything else is unchanged. *)
Definition lowerChar (c : ascii) : ascii :=
  if inRange 65 90 c || (inRange 192 222 c && negb (code c =? 215)%N)
  then ascii_of_N (code c + 32)
  else c.

Fixpoint toLowerCase (s : string) : string :=
  match s with
  | EmptyString => EmptyString
  | String c t => String (lowerChar c) (toLowerCase t)
  end.

(** [s.startsWith(p)]. *)
Fixpoint startsWith (s p : string) {struct p} : bool :=
  match p, s with
  | EmptyString, _ => true
  | String _ _, EmptyString => false
  | String a p', String b s' => Ascii.eqb a b && startsWith s' p'
  end.

(** [s.includes(needle)]: [needle] starts at some position of [s]. *)
Fixpoint includes (s needle : string) : bool :=
  startsWith s needle ||
  match s with
  | EmptyString => false
  | String _ t => includes t needle
  end.

(** Longest prefix of [s] whose characters satisfy [p], and the rest. *)
Fixpoint span (p : ascii -> bool) (s : string) : string * string :=
  match s with
  | EmptyString => (EmptyString, EmptyString)
  | String c t =>
      if p c then let (a, b) := span p t in (String c a, b)
      else (EmptyString, s)
  end.

Fixpoint forallb (p : ascii -> bool) (s : string) : bool :=
  match s with
  | EmptyString => true
  | String c t => p c && forallb p t
  end.

(** Truthiness of a string-or-undefined value: [undefined] and the empty
    string are falsy. *)
Definition truthy (v : option string) : bool :=
  match v with
  | Some (String _ _) => true
  | _ => false
  end.

(** Truthiness of a number-or-null value: [null] and [0] are falsy. *)
Definition truthyNum (v : option N) : bool :=
  match v with
  | Some n => negb (n =? 0)%N
  | None => false
  end.

(** [v || d] on a number-or-null value. *)
Definition numOr (v : option N) (d : N) : N :=
  match v with
  | Some n => if truthyNum v then n else d
  | None => d
  end.

(** Template-literal rendering of a non-negative integer.  Exact for
    values below 2^53, where a JavaScript number holds the integer
    exactly and prints it in plain decimal; a larger value is a rounded
    double in the program and may print in exponent form.  Statements
    that depend on the digits of a number carry that bound. *)
Definition numToString (n : N) : string :=
  NilEmpty.string_of_uint (N.to_uint n).

End JS.
Import JS.

(* ================================================================== *)
(** ** Value extractors *)

Definition isDigit (c : ascii) : bool := inRange 48 57 c.

Definition digitValue (c : ascii) : N := (code c - 48)%N.

(** [parseInt] on a run of decimal digits: the decimal value of the run,
    which is the result of the program for values below 2^53 (beyond, the
    program has the nearest double). *)
Fixpoint parseDigits (acc : N) (s : string) : N :=
  match s with
  | EmptyString => acc
  | String c t => parseDigits (10 * acc + digitValue c)%N t
  end.

Definition parseInt (digits : string) : N := parseDigits 0 digits.

(** The regular expression [/\d+/]: the leftmost, longest run of digits. *)
Fixpoint matchDigits (text : string) : option string :=
  match text with
  | EmptyString => None
  | String c t =>
      if isDigit c then Some (String c (fst (span isDigit t)))
      else matchDigits t
  end.

(** [extractNumber(text)]: [match ? parseInt(match[0]) : null]. *)
Definition extractNumber (text : string) : option N :=
  match matchDigits text with
  | Some m => Some (parseInt m)
  | None => None
  end.

(** The character class of the regular expression: a double or a single
    quote. *)
Definition isQuote (c : ascii) : bool :=
  Ascii.eqb c DQ || Ascii.eqb c SQ.

Definition notQuote (c : ascii) : bool := negb (isQuote c).

(** The regular expression of [extractQuotedValue] (quote class, a group
    of one or more characters outside the quote class, quote class)
    anchored at the head of [text]: a quote, then the greedy run of
    non-quote characters, which must be non-empty and followed by a quote
    (of either kind).  A shorter
    run is followed by a non-quote character, so backtracking never helps.
    The result is capture group 1. *)
Definition matchQuotedHere (text : string) : option string :=
  match text with
  | EmptyString => None
  | String c rest =>
      if isQuote c then
        match span notQuote rest with
        | (String b body, String _ _) => Some (String b body)
        | _ => None
        end
      else None
  end.

(** [extractQuotedValue(text)]: the leftmost position where the regular
    expression matches decides; [match ? match[1] : null]. *)
Fixpoint extractQuotedValue (text : string) : option string :=
  match matchQuotedHere text with
  | Some v => Some v
  | None =>
      match text with
      | EmptyString => None
      | String _ t => extractQuotedValue t
      end
  end.

(* ================================================================== *)
(** ** Column resolver *)

(** [q.includes(k1) || q.includes(k2) || ...] *)
Definition includesAny (s : string) (keys : list string) : bool :=
  existsb (includes s) keys.

(** First loop of [findColumnInQuestion]: [q.includes(col.toLowerCase())]. *)
Definition exactMatch (q col : string) : bool :=
  includes q (toLowerCase col).

(** Body of the second loop: the five synonym rules, tried in order; each
    returns the same [col], so their disjunction decides. *)
Definition synonymMatch (q col : string) : bool :=
  let colLower := toLowerCase col in
  (includesAny q ["name"; "title"] &&
   includesAny colLower ["name"; "title"; "software"]) ||
  (includesAny q ["category"; "type"] &&
   includesAny colLower ["category"; "type"; "kind"]) ||
  (includesAny q ["install"; "software"] &&
   includesAny colLower ["install"; "software"; "app"; "program"]) ||
  (includes q "status" && includes colLower "status") ||
  (includesAny q ["date"; "time"] &&
   includesAny colLower ["date"; "time"; "created"]).

(** Body of the third loop: names that look categorical. *)
Definition categorical (col : string) : bool :=
  includesAny (toLowerCase col)
    ["name"; "title"; "software"; "app"; "program"; "category"; "type";
     "status"].

(** [findColumnInQuestion(question)], with [this.currentData.schema] passed
    as [columns].  [None] is [undefined], the value of [columns[0]] on an
    empty array. *)
Definition findColumnInQuestion (columns : list string) (question : string)
  : option string :=
  let q := toLowerCase question in
  match find (exactMatch q) columns with
  | Some col => Some col
  | None =>
      match find (synonymMatch q) columns with
      | Some col => Some col
      | None =>
          match find categorical columns with
          | Some col => Some col
          | None => hd_error columns
          end
      end
  end.

(** [col => col !== excludeColumn] *)
Definition differs (excludeColumn col : string) : bool :=
  negb (String.eqb col excludeColumn).

(** [findSecondColumnInQuestion(question, excludeColumn)]; [None] is
    [null]. *)
Definition findSecondColumnInQuestion (columns : list string)
  (question excludeColumn : string) : option string :=
  let columns' := filter (differs excludeColumn) columns in
  find (fun col => includes (toLowerCase question) (toLowerCase col)) columns'.

(* ================================================================== *)
(** ** The explorer object and thrown errors *)

(** What a method throws: a [TypeError] of the runtime (a property read
    on [null]) or [new Error(message)]. *)
Inductive exn : Type :=
| TypeError
| Error (message : string).

Inductive result (A : Type) : Type :=
| Ok (value : A)
| Throw (e : exn).
Arguments Ok {A} value.
Arguments Throw {A} e.

(** [this.currentData] once a file is loaded. *)
Record CurrentData : Type := mkCurrentData {
  tableName : string;
  schema : list string;
  rowCount : nat
}.

(** A cell bound into the store: text, or [None] for [null]. *)
Definition cell : Type := option string.

(** One table of the storage engine: its name, the column names its
    text-typed columns were declared from, in order, and the rows
    inserted so far, oldest first. *)
Record Table : Type := mkTable {
  name : string;
  columnDefs : list string;
  rows : list (list cell)
}.

(** A database of the storage engine ([new this.SQL.Database()] is the
    empty one). *)
Definition Database : Type := list Table.

(** The fields of [DataExplorer] that the modelled methods read or write;
    [SQL] tells whether the storage engine finished loading. *)
Record DataExplorer : Type := mkDataExplorer {
  currentData : option CurrentData;
  db : option Database;
  SQL : bool
}.

(* ================================================================== *)
(** ** SQL synthesizer *)

(** [const tableName = 'user_data'] *)
Definition userData : string := "user_data".

(** A column name between double quotes, as the templates write it. *)
Definition quoted (column : string) : string :=
  String DQ (column ++ String DQ "").

Definition groupedCountSQL (column : string) : string :=
  "SELECT " ++ quoted column ++ ", COUNT(*) as count FROM " ++ userData ++
  " GROUP BY " ++ quoted column ++ " ORDER BY count DESC".

Definition limitSQL (num : N) : string :=
  "SELECT * FROM " ++ userData ++ " LIMIT " ++ numToString num.

Definition selectAllSQL : string := "SELECT * FROM " ++ userData.

Definition countSQL : string :=
  "SELECT COUNT(*) as total_rows FROM " ++ userData.

Definition groupedAvgSQL (groupCol column : string) : string :=
  "SELECT " ++ quoted groupCol ++ ", AVG(" ++ quoted column ++ ") as avg_" ++
  column ++ " FROM " ++ userData ++ " GROUP BY " ++ quoted groupCol ++
  " ORDER BY avg_" ++ column ++ " DESC".

Definition avgSQL (column : string) : string :=
  "SELECT AVG(" ++ quoted column ++ ") as average_" ++ column ++ " FROM " ++
  userData.

Definition groupedSumSQL (groupCol column : string) : string :=
  "SELECT " ++ quoted groupCol ++ ", SUM(" ++ quoted column ++ ") as total_" ++
  column ++ " FROM " ++ userData ++ " GROUP BY " ++ quoted groupCol ++
  " ORDER BY total_" ++ column ++ " DESC".

Definition sumSQL (column : string) : string :=
  "SELECT SUM(" ++ quoted column ++ ") as total_" ++ column ++ " FROM " ++
  userData.

Definition maxSQL (column : string) : string :=
  "SELECT * FROM " ++ userData ++ " ORDER BY " ++ quoted column ++
  " DESC LIMIT 1".

Definition minSQL (column : string) : string :=
  "SELECT * FROM " ++ userData ++ " ORDER BY " ++ quoted column ++
  " ASC LIMIT 1".

Definition distinctSQL (column : string) : string :=
  "SELECT DISTINCT " ++ quoted column ++ " FROM " ++ userData ++
  " ORDER BY " ++ quoted column.

Definition greaterSQL (column : string) (value : N) : string :=
  "SELECT * FROM " ++ userData ++ " WHERE " ++ quoted column ++ " > " ++
  numToString value ++ " ORDER BY " ++ quoted column ++ " DESC".

Definition lessSQL (column : string) (value : N) : string :=
  "SELECT * FROM " ++ userData ++ " WHERE " ++ quoted column ++ " < " ++
  numToString value ++ " ORDER BY " ++ quoted column ++ " ASC".

Definition sortSQL (column desc : string) : string :=
  "SELECT * FROM " ++ userData ++ " ORDER BY " ++ quoted column ++ " " ++ desc.

Definition likeSQL (column value : string) : string :=
  "SELECT * FROM " ++ userData ++ " WHERE " ++ quoted column ++ " LIKE '%" ++
  value ++ "%'".

Definition defaultSQL : string := "SELECT * FROM " ++ userData ++ " LIMIT 20".

(** [if (column) { return build(column) }]: the statement is returned when
    [column] is truthy; [None] means that control falls out of the block. *)
Definition ifColumn (column : option string) (build : string -> option string)
  : option string :=
  match column with
  | Some c => if truthy column then build c else None
  | None => None
  end.

(** Each top-level [if] block of [generateSQLWithPatterns] is one
    definition: [Some sql] when the block executes a [return], [None] when
    control reaches the next block.  [q] is the lower-cased question. *)

Definition chartPattern (columns : list string) (q : string) : option string :=
  if includesAny q ["chart"; "graph"; "plot"] then
    ifColumn (findColumnInQuestion columns q)
      (fun column => Some (groupedCountSQL column))
  else None.

(** The alternatives inside the show/display/view block. *)
Definition showChart (columns : list string) (q : string) : option string :=
  if includesAny q ["chart"; "graph"; "bar"; "plot"] then
    ifColumn (findColumnInQuestion columns q)
      (fun column => Some (groupedCountSQL column))
  else None.

Definition showBy (columns : list string) (q : string) : option string :=
  if includes q " by " then
    ifColumn (findColumnInQuestion columns q)
      (fun column => Some (groupedCountSQL column))
  else None.

Definition showTop (q : string) : option string :=
  if includesAny q ["first"; "top"] then
    let num := numOr (extractNumber q) 10 in
    Some (limitSQL num)
  else None.

Definition showAll (q : string) : option string :=
  if includes q "all" then Some selectAllSQL else None.

(** First of two alternatives that returns. *)
Definition orElse {A : Type} (first second : option A) : option A :=
  match first with
  | Some x => Some x
  | None => second
  end.

Notation "a <|> b" := (orElse a b) (at level 61, left associativity).

Definition showPattern (columns : list string) (q : string) : option string :=
  if includesAny q ["show"; "display"; "view"] then
    showChart columns q <|> showBy columns q <|> showTop q <|> showAll q
  else None.

Definition countPattern (columns : list string) (q : string) : option string :=
  if includes q "count" then
    (if includesAny q ["group"; "by"] then
       ifColumn (findColumnInQuestion columns q)
         (fun column => Some (groupedCountSQL column))
     else None)
    <|> Some countSQL
  else None.

(** Shared layout of the average and sum blocks: the grouped statement
    when a grouping word is present and a second column resolves, the
    plain aggregate otherwise. *)
Definition aggregatePattern (grouped : string -> string -> string)
  (plain : string -> string) (columns : list string) (q : string)
  : option string :=
  ifColumn (findColumnInQuestion columns q) (fun column =>
    (if includesAny q ["group"; "by"] then
       ifColumn (findSecondColumnInQuestion columns q column)
         (fun groupCol => Some (grouped groupCol column))
     else None)
    <|> Some (plain column)).

Definition averagePattern (columns : list string) (q : string)
  : option string :=
  if includesAny q ["average"; "avg"; "mean"] then
    aggregatePattern groupedAvgSQL avgSQL columns q
  else None.

Definition sumPattern (columns : list string) (q : string) : option string :=
  if includesAny q ["sum"; "total"] then
    aggregatePattern groupedSumSQL sumSQL columns q
  else None.

Definition maxPattern (columns : list string) (q : string) : option string :=
  if includesAny q ["maximum"; "max"; "highest"] then
    ifColumn (findColumnInQuestion columns q)
      (fun column => Some (maxSQL column))
  else None.

Definition minPattern (columns : list string) (q : string) : option string :=
  if includesAny q ["minimum"; "min"; "lowest"] then
    ifColumn (findColumnInQuestion columns q)
      (fun column => Some (minSQL column))
  else None.

Definition distinctPattern (columns : list string) (q : string)
  : option string :=
  if includesAny q ["unique"; "distinct"] then
    ifColumn (findColumnInQuestion columns q)
      (fun column => Some (distinctSQL column))
  else None.

(** [if (column && value) { return build(column, value) }] *)
Definition ifColumnAndValue (column : option string) (value : option N)
  (build : string -> N -> string) : option string :=
  match column, value with
  | Some c, Some v =>
      if truthy column && truthyNum value then Some (build c v) else None
  | _, _ => None
  end.

Definition greaterPattern (columns : list string) (q : string)
  : option string :=
  if includesAny q ["greater than"; ">"; "more than"] then
    ifColumnAndValue (findColumnInQuestion columns q) (extractNumber q)
      greaterSQL
  else None.

Definition lessPattern (columns : list string) (q : string) : option string :=
  if includesAny q ["less than"; "<"; "below"] then
    ifColumnAndValue (findColumnInQuestion columns q) (extractNumber q)
      lessSQL
  else None.

Definition sortPattern (columns : list string) (q : string) : option string :=
  if includesAny q ["sort"; "order"] then
    let desc := if includesAny q ["desc"; "descending"; "highest"]
                then "DESC" else "ASC" in
    ifColumn (findColumnInQuestion columns q)
      (fun column => Some (sortSQL column desc))
  else None.

Definition searchPattern (columns : list string) (q : string)
  : option string :=
  if includesAny q ["find"; "search"; "where"] then
    ifColumn (findColumnInQuestion columns q) (fun column =>
      ifColumn (extractQuotedValue q) (fun value =>
        Some (likeSQL column value)))
  else None.

Definition byPattern (columns : list string) (q : string) : option string :=
  if includes q " by " then
    ifColumn (findColumnInQuestion columns q)
      (fun column => Some (groupedCountSQL column))
  else None.

(** The blocks in source order; the first one that returns decides. *)
Definition patterns (columns : list string) (q : string) : option string :=
  chartPattern columns q <|> showPattern columns q <|> countPattern columns q
  <|> averagePattern columns q <|> sumPattern columns q
  <|> maxPattern columns q <|> minPattern columns q
  <|> distinctPattern columns q <|> greaterPattern columns q
  <|> lessPattern columns q <|> sortPattern columns q
  <|> searchPattern columns q <|> byPattern columns q.

(** [generateSQLWithPatterns(question)].  Reading [this.currentData.schema]
    throws when no file has been loaded ([currentData] is [null]). *)
Definition generateSQLWithPatterns (this : DataExplorer) (question : string)
  : result string :=
  match currentData this with
  | None => Throw TypeError
  | Some data =>
      let q := toLowerCase question in
      let columns := schema data in
      match patterns columns q with
      | Some sql => Ok sql
      | None => Ok defaultSQL
      end
  end.

(* ================================================================== *)
(** ** Table creation *)

(** A parsed row: the object's own keys in [Object.keys] order, each with
    its value (text, or [None] for [null]). *)
Definition dataRow : Type := list (string * cell).

(** [row[col]]; [None] also stands for [undefined] (no such key). *)
Definition getField (row : dataRow) (col : string) : cell :=
  match find (fun kv => String.eqb (fst kv) col) row with
  | Some kv => snd kv
  | None => None
  end.

(** [row[col] || null]: the empty text is falsy and is stored as [null]. *)
Definition orNull (v : cell) : cell :=
  if truthy v then v else None.

(** The storage engine, as table creation uses it.  It is a collaborator
    outside the program: [dbRun] is what [this.db.run(sql)] does on the
    new database, [dbPrepare] what [this.db.prepare(sql)] does once the
    table exists, [stmtRun] what [stmt.run(values)] does for one row.
    Each of them returns or throws. *)
Record Engine : Type := mkEngine {
  dbRun : string -> result unit;
  dbPrepare : string -> result unit;
  stmtRun : list cell -> result unit
}.

(** The statement that creates the table: every column name between
    double quotes and followed by TEXT, the definitions joined by a comma
    and a space. *)
Definition createTableSQL (columns : list string) : string :=
  "CREATE TABLE " ++ userData ++ " (" ++
  String.concat ", " (map (fun col => quoted col ++ " TEXT") columns) ++ ")".

(** The insert statement: one question mark per column, joined by a
    comma and a space. *)
Definition insertSQL (columns : list string) : string :=
  "INSERT INTO " ++ userData ++ " VALUES (" ++
  String.concat ", " (map (fun _ : string => "?") columns) ++ ")".

(** [columns.map(col => row[col] || null)] *)
Definition rowValues (columns : list string) (row : dataRow) : list cell :=
  map (fun col => orNull (getField row col)) columns.

(** The loop [for (const row of data) { ...; stmt.run(values) }]: the rows
    stored when it ends, and whether it ended by a throw. *)
Fixpoint insertRows (engine : Engine) (columns : list string)
  (data : list dataRow) (inserted : list (list cell))
  : result unit * list (list cell) :=
  match data with
  | [] => (Ok tt, inserted)
  | row :: rest =>
      let values := rowValues columns row in
      match stmtRun engine values with
      | Ok _ => insertRows engine columns rest (inserted ++ [values])%list
      | Throw e => (Throw e, inserted)
      end
  end.

(** [createTableFromData(data, filename)]: the result and the object after
    the call.  [data = None] is a missing ([null] or [undefined]) dataset.
    The assignments to [this.db] and [this.currentData] come before the
    first statement is run, so they stay when the engine throws. *)
Definition createTableFromData (engine : Engine) (this : DataExplorer)
  (data : option (list dataRow)) (filename : string)
  : result unit * DataExplorer :=
  match data with
  | None | Some [] => (Throw (Error "No data found in file"), this)
  | Some ((first :: _) as parsed) =>
      if SQL this then
        let columns := map fst first in
        let registry := Some {| tableName := userData;
                                schema := columns;
                                rowCount := List.length parsed |} in
        let after (tables : Database) :=
          {| currentData := registry; db := Some tables; SQL := SQL this |} in
        let created (stored : list (list cell)) :=
          {| name := userData; columnDefs := columns; rows := stored |} in
        match dbRun engine (createTableSQL columns) with
        | Throw e => (Throw e, after [])
        | Ok _ =>
            match dbPrepare engine (insertSQL columns) with
            | Throw e => (Throw e, after [created []])
            | Ok _ =>
                let (outcome, stored) := insertRows engine columns parsed [] in
                (outcome, after [created stored])
            end
        end
      else (Throw TypeError, this)
  end.

(* ================================================================== *)
(** ** Chart decision *)

(** A value in a result row.  The store returns numbers that are never
    NaN; their magnitude plays no role here. *)
Inductive jsValue : Type :=
| VUndefined
| VNull
| VNumber (n : Z)
| VString (s : string).

Definition resultRow : Type := list (string * jsValue).

(** [row[col]] *)
Definition getValue (row : resultRow) (col : string) : jsValue :=
  match find (fun kv => String.eqb (fst kv) col) row with
  | Some kv => snd kv
  | None => VUndefined
  end.

(** White space and line terminators that the string-to-number conversion
    strips (those below code unit 256). *)
Definition isStrWhiteSpace (c : ascii) : bool :=
  inRange 9 13 c || (code c =? 32)%N || (code c =? 160)%N.

Definition isHexDigit (c : ascii) : bool :=
  isDigit c || inRange 97 102 c || inRange 65 70 c.

Definition isOneOf (c : ascii) (choices : string) : bool :=
  includes choices (String c "").

(** The rest of [s] after one or more characters that satisfy [p]. *)
Definition some1 (p : ascii -> bool) (s : string) : option string :=
  match span p s with
  | (String _ _, rest) => Some rest
  | _ => None
  end.

Fixpoint stripPrefix (p s : string) : option string :=
  match p, s with
  | EmptyString, _ => Some s
  | String a p', String b s' =>
      if Ascii.eqb a b then stripPrefix p' s' else None
  | String _ _, EmptyString => None
  end.

(** An optional exponent part: [e] or [E], an optional sign, digits. *)
Definition exponentPart (s : string) : option string :=
  match s with
  | String c t =>
      if isOneOf c "eE" then
        match t with
        | String d t' => if isOneOf d "+-" then some1 isDigit t'
                         else some1 isDigit t
        | EmptyString => None
        end
      else Some s
  | EmptyString => Some s
  end.

(** An unsigned decimal literal of the string-to-number grammar; the
    result is what follows it. *)
Definition unsignedDecimal (s : string) : option string :=
  match stripPrefix "Infinity" s with
  | Some rest => Some rest
  | None =>
      match s with
      | String c t =>
          if isDigit c then
            match snd (span isDigit s) with
            | String d r =>
                if isOneOf d "." then exponentPart (snd (span isDigit r))
                else exponentPart (String d r)
            | EmptyString => Some EmptyString
            end
          else if isOneOf c "." then
            match some1 isDigit t with
            | Some r => exponentPart r
            | None => None
            end
          else None
      | EmptyString => None
      end
  end.

Definition strDecimal (s : string) : option string :=
  match s with
  | String c t => if isOneOf c "+-" then unsignedDecimal t
                  else unsignedDecimal s
  | EmptyString => None
  end.

(** Hexadecimal, octal and binary integer literals. *)
Definition nonDecimal (s : string) : option string :=
  match s with
  | String z (String x t) =>
      if isOneOf z "0" then
        if isOneOf x "xX" then some1 isHexDigit t
        else if isOneOf x "oO" then some1 (inRange 48 55) t
        else if isOneOf x "bB" then some1 (inRange 48 49) t
        else None
      else None
  | _ => None
  end.

(** Whether [Number(s)] is a number other than NaN: [s] is white space
    only, or one numeric literal between optional white space. *)
Definition isNumericString (s : string) : bool :=
  match snd (span isStrWhiteSpace s) with
  | EmptyString => true
  | body =>
      match orElse (nonDecimal body) (strDecimal body) with
      | Some rest => forallb isStrWhiteSpace rest
      | None => false
      end
  end.

(** The global [isNaN(v)], which converts [v] to a number first. *)
Definition isNaN (v : jsValue) : bool :=
  match v with
  | VUndefined => true
  | VNull => false
  | VNumber _ => false
  | VString s => negb (isNumericString s)
  end.

(** [v !== null] *)
Definition notNull (v : jsValue) : bool :=
  match v with
  | VNull => false
  | _ => true
  end.

(** [isNaN(row[col]) && row[col] !== null] *)
Definition stringLike (v : jsValue) : bool := isNaN v && notNull v.

(** [!isNaN(row[col]) && row[col] !== null] *)
Definition numericLike (v : jsValue) : bool := negb (isNaN v) && notNull v.

(** [columns.some(col => results.some(row => test(row[col])))] *)
Definition someColumn (test : jsValue -> bool) (results : list resultRow)
  (columns : list string) : bool :=
  existsb (fun col => existsb (fun row => test (getValue row col)) results)
          columns.

Record ChartConfig : Type := mkChartConfig {
  type : string;
  labelColumn : option string;
  valueColumn : option string
}.

(** [determineChartType(results, columns)]; [None] is [null]. *)
Definition determineChartType (results : list resultRow)
  (columns : list string) : option ChartConfig :=
  if (List.length results <? 2)%nat then None
  else
    let hasStringColumn := someColumn stringLike results columns in
    let hasNumericColumn := someColumn numericLike results columns in
    if hasStringColumn && hasNumericColumn && (List.length columns =? 2)%nat then
      Some {| type := "bar";
              labelColumn := nth_error columns 0;
              valueColumn := nth_error columns 1 |}
    else None.

(* ================================================================== *)
(** ** Vocabulary of the statements *)


(** [c] is the first column, in schema order, that satisfies [p]. *)
Definition firstWhere (p : string -> bool) (columns : list string)
  (c : string) : Prop :=
  exists before after,
    columns = (before ++ c :: after)%list /\ p c = true /\
    forall x, In x before -> p x = false.

(** No column satisfies [p]. *)
Definition noneWhere (p : string -> bool) (columns : list string) : Prop :=
  forall x, In x columns -> p x = false.

(** The statements the synthesizer can emit over a schema: one
    constructor per template, every column slot filled from the schema. *)
Inductive shape (columns : list string) : string -> Prop :=
| shape_groupedCount c :
    In c columns -> shape columns (groupedCountSQL c)
| shape_limit n : shape columns (limitSQL n)
| shape_selectAll : shape columns selectAllSQL
| shape_count : shape columns countSQL
| shape_groupedAvg g c :
    In g columns -> In c columns -> shape columns (groupedAvgSQL g c)
| shape_avg c : In c columns -> shape columns (avgSQL c)
| shape_groupedSum g c :
    In g columns -> In c columns -> shape columns (groupedSumSQL g c)
| shape_sum c : In c columns -> shape columns (sumSQL c)
| shape_max c : In c columns -> shape columns (maxSQL c)
| shape_min c : In c columns -> shape columns (minSQL c)
| shape_distinct c : In c columns -> shape columns (distinctSQL c)
| shape_greater c n : In c columns -> shape columns (greaterSQL c n)
| shape_less c n : In c columns -> shape columns (lessSQL c n)
| shape_sort c d : In c columns -> shape columns (sortSQL c d)
| shape_like c v : In c columns -> shape columns (likeSQL c v)
| shape_default : shape columns defaultSQL.

(** [text] splits as [before], a quote, the non-empty quote-free [v], a
    quote, and a rest; the two quotes may differ. *)
Definition quotedAt (text before v : string) : Prop :=
  exists q1 q2 after,
    text = before ++ String q1 (v ++ String q2 after) /\
    isQuote q1 = true /\ isQuote q2 = true /\
    v <> "" /\ forallb notQuote v = true.

(** [v] stands somewhere in [text] between two occurrences of one and the
    same quote character. *)
Fixpoint enclosedInMatchingQuotes (text v : string) : bool :=
  match text with
  | EmptyString => false
  | String c rest =>
      (isQuote c && startsWith rest (v ++ String c "")) ||
      enclosedInMatchingQuotes rest v
  end.

(** The exclude-variant of the resolver as the specification words it: the
    exact-match step and then the synonym step of [findColumnInQuestion],
    over the schema without [excludeColumn], and no fallback. *)
Definition resolveExcluding_spec (columns : list string)
  (question excludeColumn : string) : option string :=
  let columns' := filter (differs excludeColumn) columns in
  let q := toLowerCase question in
  match find (exactMatch q) columns' with
  | Some col => Some col
  | None => find (synonymMatch q) columns'
  end.

(** Some row has a value in column [col] that passes [test]. *)
Definition hasValue (test : jsValue -> bool) (results : list resultRow)
  (col : string) : bool :=
  existsb (fun row => test (getValue row col)) results.

(** Chart eligibility as the specification words it: at least two rows,
    exactly two columns, one of them with a non-numeric value and the
    other one with a numeric value. *)
Definition chartEligible_spec (results : list resultRow)
  (columns : list string) : bool :=
  (2 <=? List.length results)%nat &&
  match columns with
  | [a; b] =>
      (hasValue stringLike results a && hasValue numericLike results b) ||
      (hasValue stringLike results b && hasValue numericLike results a)
  | _ => false
  end.


(* ================================================================== *)
(** ** File type dispatch *)

(** [s.split(sep)] for a one-character separator: the pieces between the
    separators, in order; never the empty array. *)
Fixpoint split (sep : ascii) (s : string) : list string :=
  match s with
  | EmptyString => [EmptyString]
  | String c t =>
      if Ascii.eqb c sep then EmptyString :: split sep t
      else match split sep t with
           | piece :: pieces => String c piece :: pieces
           | [] => [String c EmptyString]
           end
  end.

(** The two parsers a file can be handed to. *)
Inductive parser : Type :=
| parseCSV
| parseExcel.

(** [parseFile(file)], as far as the choice goes: the parser that the call
    delegates to, from [file.name.split('.').pop().toLowerCase()], or the
    error it throws. *)
Definition parseFile (fileName : string) : result parser :=
  let ext := toLowerCase (last (split "." fileName) EmptyString) in
  if String.eqb ext "csv" then Ok parseCSV
  else if String.eqb ext "xlsx" || String.eqb ext "xls" then Ok parseExcel
  else Throw (Error "Unsupported file type. Please upload CSV or Excel files.").

(* ================================================================== *)
(** ** The optional text-generation backend *)

(** [s.trim()]: white space and line terminators go from both ends. *)
Fixpoint trimStart (s : string) : string :=
  match s with
  | EmptyString => EmptyString
  | String c t => if isStrWhiteSpace c then trimStart t else s
  end.

Fixpoint trimEnd (s : string) : string :=
  match s with
  | EmptyString => EmptyString
  | String c t =>
      match trimEnd t with
      | EmptyString => if isStrWhiteSpace c then EmptyString
                       else String c EmptyString
      | kept => String c kept
      end
  end.

Definition trim (s : string) : string := trimEnd (trimStart s).

(** [sql.replace(/^(SELECT|select)/, 'SELECT')]: only these two spellings
    at the very start are rewritten. *)
Definition upcaseSelect (sql : string) : string :=
  match stripPrefix "SELECT" sql with
  | Some rest => "SELECT" ++ rest
  | None =>
      match stripPrefix "select" sql with
      | Some rest => "SELECT" ++ rest
      | None => sql
      end
  end.

(** The clean-up that [generateSQLWithAI] applies to the generated text. *)
Definition cleanGenerated (generated_text : string) : string :=
  let sql := upcaseSelect (trim generated_text) in
  if negb (includes (toLowerCase sql) "from")
  then sql ++ " FROM user_data"
  else sql.

(** The fields of the object that concern the backend.  A [pipeline] maps
    the prompt to the generated text of its first result, or throws (the
    backend rejects, or its answer has no such text). *)
Record Backend : Type := mkBackend {
  modelLoaded : bool;
  pipeline : option (string -> result string)
}.

(** The prompt of [generateSQLWithAI]. *)
Definition prompt (question : string) (columns : list string) : string :=
  "Translate to SQL: " ++ quoted question ++
  " for table user_data with columns " ++ String.concat ", " columns.

(** [generateSQLWithAI(question)] *)
Definition generateSQLWithAI (ai : Backend) (this : DataExplorer)
  (question : string) : result string :=
  match currentData this with
  | None => Throw TypeError
  | Some data =>
      match pipeline ai with
      | None => Throw TypeError
      | Some run =>
          match run (prompt question (schema data)) with
          | Ok generated_text => Ok (cleanGenerated generated_text)
          | Throw e => Throw e
          end
      end
  end.

(** [generateSQLFromQuestion(question)] of the variant that tries the
    backend first (the second class of the file): any failure of the
    backend is caught and the rules take over. *)
Definition generateSQLFromQuestion (ai : Backend) (this : DataExplorer)
  (question : string) : result string :=
  if modelLoaded ai && match pipeline ai with Some _ => true | None => false end
  then
    match generateSQLWithAI ai this question with
    | Ok sql => Ok sql
    | Throw _ => generateSQLWithPatterns this question
    end
  else generateSQLWithPatterns this question.

(* ================================================================== *)
(** ** Column hints *)

(** [s.replace(pattern, replacement)] for a string pattern: only the
    first occurrence is replaced.  ([replacement] holds no dollar sign
    where this is used.) *)
Fixpoint replace (s pattern replacement : string) : string :=
  match stripPrefix pattern s with
  | Some rest => replacement ++ rest
  | None =>
      match s with
      | EmptyString => EmptyString
      | String c t => String c (replace t pattern replacement)
      end
  end.


(** [generateColumnExamples(columns)] *)
Definition generateColumnExamples (columns : list string) : list string :=
  let nameColumns :=
    filter (fun col => includesAny (toLowerCase col)
                         ["name"; "title"; "software"]) columns in
  let categoryColumns :=
    filter (fun col => includesAny (toLowerCase col)
                         ["category"; "type"; "status"]) columns in
  let examples1 :=
    match nameColumns with
    | first :: _ => [quoted ("Show me a bar chart by " ++ first)]
    | [] => []
    end in
  let examples2 :=
    match categoryColumns with
    | first :: _ => [quoted ("Count items by " ++ first)]
    | [] => []
    end in
  let examples3 :=
    match columns with
    | first :: others =>
        quoted "Show me the top 10 rows" ::
        match others with
        | _ :: _ => [quoted ("What are the unique values in " ++ first ++ "?")]
        | [] => []
        end
    | [] => []
    end in
  firstn 3 (examples1 ++ examples2 ++ examples3)%list.

(* ================================================================== *)
(** ** Chart labels *)






(* ================================================================== *)
(** ** The result table *)


Section ResultTable.

(** [parseFloat(value).toLocaleString()]: the rendering depends on the
    locale of the host. *)
Variable toLocaleString : jsValue -> string.






End ResultTable.

(* ================================================================== *)
(** ** Vocabulary of the further statements *)

(** The parts a statement is put together from: fixed text, a reference
    to a column, the alias given to an aggregate (a prefix and a column
    name), the table name, a number, and the value of a search. *)
Inductive piece : Type :=
| Keyword (text : string)
| ColumnRef (column : string)
| Alias (prefix column : string)
| TableName
| Number (n : N)
| SearchValue (value : string).

(** How each part is written: a column reference stands between two
    double quotes, an alias is its prefix and the bare column name, the
    table name is the fixed one. *)
Definition renderPiece (p : piece) : string :=
  match p with
  | Keyword text => text
  | ColumnRef column => String DQ (column ++ String DQ "")
  | Alias prefix column => prefix ++ column
  | TableName => "user_data"
  | Number n => numToString n
  | SearchValue value => value
  end.

Definition render (pieces : list piece) : string :=
  String.concat "" (map renderPiece pieces).





(** The engine accepts everything table creation asks of it for these
    columns and rows. *)
Definition accepts (engine : Engine) (columns : list string)
  (data : list dataRow) : Prop :=
  dbRun engine (createTableSQL columns) = Ok tt /\
  dbPrepare engine (insertSQL columns) = Ok tt /\
  forall row, In row data -> stmtRun engine (rowValues columns row) = Ok tt.

(** Integers that a number of the language holds exactly and prints in
    plain decimal. *)
Definition exactInteger (n : N) : Prop := (n < 2 ^ 53)%N.


Definition notDigit (c : ascii) : bool := negb (isDigit c).

(** What may follow a digit run: the end of the text or a non-digit. *)
Definition stopsDigits (after : string) : Prop :=
  match after with
  | EmptyString => True
  | String c _ => isDigit c = false
  end.

(** [s] holds no dot. *)
Definition noDot (s : string) : bool :=
  forallb (fun c => negb (Ascii.eqb c ".")) s.

(* ================================================================== *)
(** * Properties *)

(** ** Strings *)

Section StringFacts.





Lemma includes_later (before s needle : string) :
  includes s needle = true -> includes (before ++ s) needle = true.
Proof.
  intros H. induction before as [|a b IH]; simpl; [exact H|].
  rewrite IH. apply orb_true_r.
Qed.

Lemma includes_cons (a : ascii) (s needle : string) :
  includes s needle = true -> includes (String a s) needle = true.
Proof. apply (includes_later (String a "")). Qed.

Lemma includesAny_false (s : string) (keys : list string) :
  includesAny s keys = false ->
  forall k, In k keys -> includes s k = false.
Proof.
  unfold includesAny. intros H k Hk.
  destruct (includes s k) eqn:E; [|reflexivity].
  assert (existsb (includes s) keys = true)
    by (apply existsb_exists; now exists k).
  congruence.
Qed.

Lemma includesAny_sub (s : string) (keys sub : list string) :
  includesAny s keys = false -> incl sub keys -> includesAny s sub = false.
Proof.
  intros H Hsub. unfold includesAny.
  destruct (existsb (includes s) sub) eqn:E; [|reflexivity].
  apply existsb_exists in E. destruct E as [k [Hk Hin]].
  rewrite (includesAny_false s keys H k (Hsub k Hk)) in Hin. discriminate.
Qed.

End StringFacts.

(** ** Loops that return the first hit *)

Section FirstHit.

Context {A : Type} (p : A -> bool).

Lemma find_split (l : list A) (c : A) :
  find p l = Some c ->
  exists before after,
    l = (before ++ c :: after)%list /\ p c = true /\
    forall x, In x before -> p x = false.
Proof.
  induction l as [|a l IH]; simpl; [discriminate|].
  destruct (p a) eqn:Ea.
  - intros [= <-]. exists [], l. repeat split; auto. intros x [].
  - intros H. destruct (IH H) as (before & after & -> & Hc & Hb).
    exists (a :: before), after. repeat split; auto.
    intros x [<- | Hx]; auto.
Qed.

Lemma find_first (before after : list A) (c : A) :
  p c = true -> (forall x, In x before -> p x = false) ->
  find p (before ++ c :: after)%list = Some c.
Proof.
  intros Hc. induction before as [|a before IH]; simpl; intros Hb.
  - now rewrite Hc.
  - rewrite (Hb a (or_introl eq_refl)). apply IH. intros x Hx. apply Hb. now right.
Qed.

Lemma find_none_iff (l : list A) :
  find p l = None <-> forall x, In x l -> p x = false.
Proof.
  split.
  - apply find_none.
  - induction l as [|a l IH]; simpl; intros H; [reflexivity|].
    rewrite (H a (or_introl eq_refl)). apply IH. intros x Hx. apply H. now right.
Qed.

Lemma find_exists (l : list A) :
  (exists x, In x l /\ p x = true) -> exists c, find p l = Some c.
Proof.
  intros (x & Hx & Hp). destruct (find p l) eqn:E; [eauto|].
  rewrite (find_none _ _ E x Hx) in Hp. discriminate.
Qed.

End FirstHit.

(** ** Column resolver *)

Lemma firstWhere_find (p : string -> bool) (columns : list string) (c : string) :
  firstWhere p columns c <-> find p columns = Some c.
Proof.
  split.
  - intros (before & after & -> & Hc & Hb). now apply find_first.
  - apply find_split.
Qed.

Lemma noneWhere_find (p : string -> bool) (columns : list string) :
  noneWhere p columns <-> find p columns = None.
Proof. symmetry. apply find_none_iff. Qed.

Lemma findColumnInQuestion_In (columns : list string) (question c : string) :
  findColumnInQuestion columns question = Some c -> In c columns.
Proof.
  unfold findColumnInQuestion.
  destruct (find (exactMatch _) columns) eqn:E1.
  { intros [= <-]. now apply find_some in E1. }
  destruct (find (synonymMatch _) columns) eqn:E2.
  { intros [= <-]. now apply find_some in E2. }
  destruct (find categorical columns) eqn:E3.
  { intros [= <-]. now apply find_some in E3. }
  destruct columns; simpl; [discriminate|]. intros [= <-]. now left.
Qed.

Lemma findColumnInQuestion_nil (question : string) :
  findColumnInQuestion [] question = None.
Proof. reflexivity. Qed.

Lemma findSecondColumnInQuestion_In (columns : list string)
  (question excludeColumn g : string) :
  findSecondColumnInQuestion columns question excludeColumn = Some g ->
  In g columns /\ g <> excludeColumn.
Proof.
  unfold findSecondColumnInQuestion. intros H.
  apply find_some in H. destruct H as [H _].
  apply filter_In in H. destruct H as [Hin Hd]. split; [exact Hin|].
  unfold differs in Hd. intros ->. now rewrite String.eqb_refl in Hd.
Qed.

(** C3.  For a non-empty schema the resolver returns a member of the
    schema.  If some column's lower-cased name occurs in the lower-cased
    question, the result is the first such column in schema order.
    Otherwise the result is the first column that a synonym rule accepts;
    failing that the first column with a categorical name; failing that
    the first column of the schema. *)
Theorem findColumnInQuestion_spec (columns : list string) (question : string) :
  columns <> [] ->
  let q := toLowerCase question in
  let exact := fun col => includes q (toLowerCase col) in
  (exists c, findColumnInQuestion columns question = Some c /\ In c columns) /\
  ((exists x, In x columns /\ exact x = true) ->
   exists c, findColumnInQuestion columns question = Some c /\
             firstWhere exact columns c) /\
  (noneWhere exact columns ->
   ((exists x, In x columns /\ synonymMatch q x = true) ->
    exists c, findColumnInQuestion columns question = Some c /\
              firstWhere (synonymMatch q) columns c) /\
   (noneWhere (synonymMatch q) columns ->
    ((exists x, In x columns /\ categorical x = true) ->
     exists c, findColumnInQuestion columns question = Some c /\
               firstWhere categorical columns c) /\
    (noneWhere categorical columns ->
     findColumnInQuestion columns question = hd_error columns))).
Proof.
  intros Hne q exact.
  assert (Hex : exactMatch q = exact) by reflexivity.
  split; [|split].
  - destruct (findColumnInQuestion columns question) as [c|] eqn:E.
    + exists c. split; [reflexivity|]. now apply findColumnInQuestion_In in E.
    + exfalso. unfold findColumnInQuestion in E.
      destruct (find _ columns); [discriminate|].
      destruct (find _ columns); [discriminate|].
      destruct (find _ columns); [discriminate|].
      destruct columns; [now apply Hne | discriminate].
  - intros Hx. destruct (find_exists exact columns Hx) as [c Hc].
    exists c. split; [|now apply firstWhere_find].
    unfold findColumnInQuestion. fold q. rewrite Hex, Hc. reflexivity.
  - intros N1. apply noneWhere_find in N1. split.
    + intros Hx. destruct (find_exists _ columns Hx) as [c Hc].
      exists c. split; [|now apply firstWhere_find].
      unfold findColumnInQuestion. fold q. rewrite Hex, N1, Hc. reflexivity.
    + intros N2. apply noneWhere_find in N2. split.
      * intros Hx. destruct (find_exists _ columns Hx) as [c Hc].
        exists c. split; [|now apply firstWhere_find].
        unfold findColumnInQuestion. fold q. rewrite Hex, N1, N2, Hc. reflexivity.
      * intros N3. apply noneWhere_find in N3.
        unfold findColumnInQuestion. fold q. rewrite Hex, N1, N2, N3. reflexivity.
Qed.

Lemma findColumnInQuestion_spec_witness :
  ["Software"; "Category"; "Installs"] <> [] /\
  exists c,
    findColumnInQuestion ["Software"; "Category"; "Installs"]
      "Chart by CATEGORY" = Some c /\
    firstWhere
      (fun col => includes (toLowerCase "Chart by CATEGORY") (toLowerCase col))
      ["Software"; "Category"; "Installs"] c.
Proof.
  split; [discriminate|].
  apply (findColumnInQuestion_spec ["Software"; "Category"; "Installs"]
           "Chart by CATEGORY"); [discriminate|].
  exists "Category". split; [simpl; auto | reflexivity].
Defined.

(** ** Synthesizer: what each block can return *)

Lemma orElse_Some {A : Type} (a b : option A) (x : A) :
  a <|> b = Some x -> a = Some x \/ (a = None /\ b = Some x).
Proof. destruct a; simpl; intros H; [left | right]; auto. Qed.

Lemma ifColumn_Some (column : option string) (build : string -> option string)
  (sql : string) :
  ifColumn column build = Some sql ->
  exists c, column = Some c /\ c <> "" /\ build c = Some sql.
Proof.
  destruct column as [[|a c]|]; simpl; try discriminate.
  intros H. exists (String a c). repeat split; [discriminate | exact H].
Qed.

Lemma ifColumn_falsy (column : option string) (build : string -> option string) :
  truthy column = false -> ifColumn column build = None.
Proof. destruct column as [[|a c]|]; simpl; auto; discriminate. Qed.

Lemma ifColumn_truthy (c : string) (build : string -> option string) :
  c <> "" -> ifColumn (Some c) build = build c.
Proof. destruct c; simpl; [congruence | reflexivity]. Qed.

Lemma ifColumnAndValue_Some (column : option string) (value : option N)
  (build : string -> N -> string) (sql : string) :
  ifColumnAndValue column value build = Some sql ->
  exists c v, column = Some c /\ value = Some v /\ c <> "" /\ v <> 0%N /\
              sql = build c v.
Proof.
  destruct column as [[|a c]|], value as [v|]; simpl; try discriminate.
  destruct (N.eqb_spec v 0); simpl; [discriminate|].
  intros [= <-]. exists (String a c), v. repeat split; auto. discriminate.
Qed.

Lemma ifColumnAndValue_falsy (column : option string) (value : option N)
  (build : string -> N -> string) :
  truthy column = false -> ifColumnAndValue column value build = None.
Proof.
  destruct column as [[|a c]|], value; simpl; auto; discriminate.
Qed.

(** Opens up an equation [block = Some sql] along the control flow of the
    block. *)
Ltac returned :=
  repeat match goal with
    | H : _ <|> _ = Some _ |- _ =>
        apply orElse_Some in H; destruct H as [H | [_ H]]
    | H : (if ?b then _ else _) = Some _ |- _ =>
        destruct b eqn:?; [|discriminate H]
    | H : ifColumn _ _ = Some _ |- _ =>
        apply ifColumn_Some in H; destruct H as (? & ? & ? & H)
    | H : ifColumnAndValue _ _ _ = Some _ |- _ =>
        apply ifColumnAndValue_Some in H;
        destruct H as (? & ? & ? & ? & ? & ? & H)
    | H : Some _ = Some _ |- _ => injection H as H
    | H : None = Some _ |- _ => discriminate H
    | H : findColumnInQuestion _ _ = Some _ |- _ =>
        apply findColumnInQuestion_In in H
    | H : findSecondColumnInQuestion _ _ _ = Some _ |- _ =>
        apply findSecondColumnInQuestion_In in H; destruct H as [H _]
    end; subst.

Lemma patterns_shape (columns : list string) (q sql : string) :
  patterns columns q = Some sql -> shape columns sql.
Proof.
  unfold patterns. intros H.
  apply orElse_Some in H; destruct H as [H | [_ H]].
  2: { unfold byPattern in H. returned. now constructor. }
  repeat match type of H with
    | _ <|> _ = Some _ => apply orElse_Some in H; destruct H as [H | [_ H]]
    end.
  all: unfold chartPattern, showPattern, showChart, showBy, showTop, showAll,
         countPattern, averagePattern, sumPattern, aggregatePattern,
         maxPattern, minPattern, distinctPattern, greaterPattern, lessPattern,
         sortPattern, searchPattern in H.
  all: returned; try (constructor; assumption).
Qed.





(** ** Empty schema *)

Lemma patterns_empty_schema (q sql : string) :
  patterns [] q = Some sql ->
  sql = countSQL \/ (exists n, sql = limitSQL n) \/ sql = selectAllSQL \/
  sql = defaultSQL.
Proof.
  intros H. apply patterns_shape in H.
  inversion H; subst; auto; try contradiction.
  right; left; eauto.
Qed.

(** C10.  With an empty schema the synthesizer still returns for every
    question: the resolver yields no column, every block that needs a
    column returns nothing, and the statement is one of the four
    column-free ones. *)
Theorem generateSQLWithPatterns_empty_schema (tn : string) (rc : nat)
  (database : option Database) (engine : bool) (question : string) :
  let this := {| currentData := Some (mkCurrentData tn [] rc);
                 db := database; SQL := engine |} in
  let q := toLowerCase question in
  findColumnInQuestion [] q = None /\
  (chartPattern [] q = None /\ showChart [] q = None /\ showBy [] q = None /\
   countPattern [] q = (if includes q "count" then Some countSQL else None) /\
   averagePattern [] q = None /\ sumPattern [] q = None /\
   maxPattern [] q = None /\ minPattern [] q = None /\
   distinctPattern [] q = None /\ greaterPattern [] q = None /\
   lessPattern [] q = None /\ sortPattern [] q = None /\
   searchPattern [] q = None /\ byPattern [] q = None) /\
  exists sql,
    generateSQLWithPatterns this question = Ok sql /\
    (sql = "SELECT COUNT(*) as total_rows FROM user_data" \/
     (exists n, sql = "SELECT * FROM user_data LIMIT " ++ numToString n) \/
     sql = "SELECT * FROM user_data" \/
     sql = "SELECT * FROM user_data LIMIT 20").
Proof.
  intros this q. split; [reflexivity|]. split.
  - unfold chartPattern, showChart, showBy, countPattern, averagePattern,
      sumPattern,
      aggregatePattern, maxPattern, minPattern, distinctPattern,
      greaterPattern, lessPattern, sortPattern, searchPattern, byPattern.
    rewrite findColumnInQuestion_nil. simpl ifColumn. simpl ifColumnAndValue.
    repeat split;
      repeat match goal with
        | |- context [if ?b then _ else _] => destruct b
        end; reflexivity.
  - unfold generateSQLWithPatterns, this. simpl currentData. cbv iota beta.
    simpl schema. fold q.
    destruct (patterns [] q) as [sql|] eqn:E.
    + exists sql. split; [reflexivity|]. apply patterns_empty_schema in E.
      exact E.
    + exists defaultSQL. split; [reflexivity|]. now right; right; right.
Qed.

(** ** Priority of the chart block *)

Lemma aggregatePattern_truthy (grouped : string -> string -> string)
  (plain : string -> string) (columns : list string) (q col : string) :
  findColumnInQuestion columns q = Some col -> col <> "" ->
  exists sql,
    aggregatePattern grouped plain columns q = Some sql /\
    ((exists g, sql = grouped g col) \/ sql = plain col).
Proof.
  intros Hc Hne. unfold aggregatePattern. rewrite Hc, ifColumn_truthy by exact Hne.
  destruct (includesAny q ["group"; "by"]).
  - destruct (ifColumn (findSecondColumnInQuestion columns q col) _) as [sql|] eqn:E.
    + exists sql. split; [reflexivity|]. left.
      apply ifColumn_Some in E. destruct E as (g & _ & _ & [= <-]). now exists g.
    + exists (plain col). split; [reflexivity | now right].
  - exists (plain col). split; [reflexivity | now right].
Qed.

(** C2, as stated, fails: the schema with the single column named by the
    empty string is non-empty, the question has a chart and an average
    keyword, and the statement is the default one, not a grouped count. *)
Lemma chart_priority_counterexample :
  let this := {| currentData := Some (mkCurrentData "user_data" [""] 1);
                 db := None; SQL := true |} in
  let q := toLowerCase "chart average" in
  [""] <> @nil string /\
  includesAny q ["chart"; "graph"; "plot"] = true /\
  includesAny q ["average"; "avg"; "mean"] = true /\
  generateSQLWithPatterns this "chart average"
    = Ok "SELECT * FROM user_data LIMIT 20" /\
  forall col, generateSQLWithPatterns this "chart average"
                <> Ok (groupedCountSQL col).
Proof.
  cbv zeta. split; [discriminate|]. do 3 (split; [reflexivity|]).
  intros col H. vm_compute in H. discriminate H.
Qed.

(** C2, amended.  For a question with a chart keyword and an average
    keyword: when the resolved column is a non-empty name, the statement
    is the grouped count over that column, built by the chart block,
    although the average block, had it been reached, would have returned
    an AVG statement; when the resolved column is missing or the empty
    name, the average block returns nothing either. *)
Theorem chart_priority (this : DataExplorer) (data : CurrentData)
  (question : string) :
  currentData this = Some data ->
  let q := toLowerCase question in
  let columns := schema data in
  includesAny q ["chart"; "graph"; "plot"] = true ->
  includesAny q ["average"; "avg"; "mean"] = true ->
  (forall col,
     findColumnInQuestion columns q = Some col -> col <> "" ->
     generateSQLWithPatterns this question
       = Ok ("SELECT " ++ quoted col ++ ", COUNT(*) as count FROM user_data" ++
             " GROUP BY " ++ quoted col ++ " ORDER BY count DESC") /\
     In col columns /\
     exists sql, averagePattern columns q = Some sql /\
                 ((exists g, sql = groupedAvgSQL g col) \/ sql = avgSQL col)) /\
  (truthy (findColumnInQuestion columns q) = false ->
   averagePattern columns q = None).
Proof.
  intros Hd q columns Hchart Havg. split.
  - intros col Hc Hne. split; [|split].
    + unfold generateSQLWithPatterns. rewrite Hd. fold q columns.
      unfold patterns, chartPattern. rewrite Hchart, Hc, ifColumn_truthy by exact Hne.
      reflexivity.
    + now apply findColumnInQuestion_In in Hc.
    + unfold averagePattern. rewrite Havg. now apply aggregatePattern_truthy.
  - intros Hf. unfold averagePattern, aggregatePattern. rewrite Havg.
    now apply ifColumn_falsy.
Qed.

Lemma chart_priority_witness :
  generateSQLWithPatterns
    {| currentData :=
         Some (mkCurrentData "user_data" ["Software"; "Category"; "Installs"] 9);
       db := None; SQL := true |}
    "Chart of average installs"
  = Ok (groupedCountSQL "Installs").
Proof.
  destruct (chart_priority
              {| currentData :=
                   Some (mkCurrentData "user_data"
                           ["Software"; "Category"; "Installs"] 9);
                 db := None; SQL := true |}
              (mkCurrentData "user_data" ["Software"; "Category"; "Installs"] 9)
              "Chart of average installs" eq_refl eq_refl eq_refl)
    as [Hfires _].
  destruct (Hfires "Installs" eq_refl) as [Hrun _]; [discriminate|].
  exact Hrun.
Defined.

(** ** The exclude-variant of the resolver *)

(** C5, as stated, fails: with the schema Sales, Product Name and Sales
    excluded, the question names no remaining column exactly, so the code
    returns nothing, while the synonym step that the claim attributes to
    it would pick Product Name. *)
Lemma findSecondColumnInQuestion_counterexample :
  findSecondColumnInQuestion ["Sales"; "Product Name"]
    "average sales by name" "Sales" = None /\
  resolveExcluding_spec ["Sales"; "Product Name"]
    "average sales by name" "Sales" = Some "Product Name" /\
  findColumnInQuestion ["Product Name"] "average sales by name"
    = Some "Product Name".
Proof. repeat split; reflexivity. Qed.

(** C5, amended.  The exclude-variant runs the exact-substring step of the
    single-column resolver, and only that step, over the schema with the
    excluded column removed: a hit is the first remaining column whose
    lower-cased name occurs in the lower-cased question, and it is what
    the single-column resolver returns on the reduced schema; without a
    hit the result is none, whatever the synonym rules would accept. *)
Theorem findSecondColumnInQuestion_spec (columns : list string)
  (question excludeColumn : string) :
  let remaining := filter (differs excludeColumn) columns in
  let q := toLowerCase question in
  let exact := fun col => includes q (toLowerCase col) in
  (forall c, In c remaining <-> In c columns /\ c <> excludeColumn) /\
  (forall c,
     findSecondColumnInQuestion columns question excludeColumn = Some c <->
     firstWhere exact remaining c) /\
  (forall c,
     findSecondColumnInQuestion columns question excludeColumn = Some c ->
     findColumnInQuestion remaining question = Some c) /\
  (findSecondColumnInQuestion columns question excludeColumn = None <->
   noneWhere exact remaining).
Proof.
  intros remaining q exact. split; [|split; [|split]].
  - intros c. unfold remaining. rewrite filter_In. unfold differs.
    destruct (String.eqb_spec c excludeColumn); simpl; intuition congruence.
  - intros c. symmetry. apply firstWhere_find.
  - intros c H. unfold findColumnInQuestion. fold q.
    change (exactMatch q) with exact.
    unfold findSecondColumnInQuestion in H. fold remaining q in H.
    change (fun col => includes q (toLowerCase col)) with exact in H.
    now rewrite H.
  - symmetry. apply noneWhere_find.
Qed.

(** ** Quoted values *)

Section Quoted.

Lemma span_split (p : ascii -> bool) (s a b : string) :
  span p s = (a, b) ->
  s = a ++ b /\ forallb p a = true /\
  match b with
  | EmptyString => True
  | String c _ => p c = false
  end.
Proof.
  revert a b. induction s as [|c s IH]; simpl; intros a b.
  - intros [= <- <-]. auto.
  - destruct (p c) eqn:Ec.
    + destruct (span p s) as [a' b'] eqn:E. intros [= <- <-].
      destruct (IH a' b' eq_refl) as (-> & Ha & Hb).
      simpl. rewrite Ec, Ha. auto.
    + intros [= <- <-]. simpl. auto.
Qed.

Lemma span_stop (p : ascii -> bool) (a : string) (c : ascii) (rest : string) :
  forallb p a = true -> p c = false ->
  span p (a ++ String c rest) = (a, String c rest).
Proof.
  intros Ha Hc. induction a as [|x a IH]; simpl in *.
  - now rewrite Hc.
  - apply andb_true_iff in Ha. destruct Ha as [Hx Ha].
    now rewrite Hx, (IH Ha).
Qed.

Lemma isQuote_notQuote (c : ascii) : isQuote c = true <-> notQuote c = false.
Proof. unfold notQuote. destruct (isQuote c); simpl; intuition congruence. Qed.

Lemma matchQuotedHere_iff (text v : string) :
  matchQuotedHere text = Some v <-> quotedAt text "" v.
Proof.
  unfold quotedAt. split.
  - destruct text as [|c rest]; simpl; [discriminate|].
    destruct (isQuote c) eqn:Ec; [|discriminate].
    destruct (span notQuote rest) as [body after] eqn:E.
    destruct body as [|b body]; [discriminate|].
    destruct after as [|d after]; [discriminate|].
    intros [= <-].
    destruct (span_split _ _ _ _ E) as (-> & Hb & Hd).
    exists c, d, after. repeat split; auto.
    + now apply isQuote_notQuote.
    + discriminate.
  - intros (q1 & q2 & after & -> & H1 & H2 & Hne & Hv). simpl.
    rewrite H1, (span_stop notQuote v q2 after Hv)
      by now apply isQuote_notQuote.
    destruct v; [congruence | reflexivity].
Qed.

Lemma quotedAt_cons (a : ascii) (text before v : string) :
  quotedAt (String a text) (String a before) v <-> quotedAt text before v.
Proof.
  unfold quotedAt. split; intros (q1 & q2 & after & E & H);
    exists q1, q2, after; split; try exact H.
  - simpl in E. now injection E.
  - simpl. now rewrite E.
Qed.

Lemma quotedAt_head (a : ascii) (text before v : string) :
  quotedAt (String a text) before v ->
  before = "" \/ exists before', before = String a before'.
Proof.
  intros (q1 & q2 & after & E & _). destruct before as [|b before]; [now left|].
  right. simpl in E. injection E as -> _. now exists before.
Qed.

Lemma extractQuotedValue_cons (a : ascii) (t : string) :
  extractQuotedValue (String a t) =
  match matchQuotedHere (String a t) with
  | Some v => Some v
  | None => extractQuotedValue t
  end.
Proof. reflexivity. Qed.

End Quoted.

(** C6, as stated, fails: in the text made of a double quote, o'brien and
    a double quote, the code returns o, which stands between a double
    quote and a single quote, not between two quotes of one kind. *)
Lemma extractQuotedValue_counterexample :
  let text := String DQ ("o'brien" ++ String DQ "") in
  extractQuotedValue text = Some "o" /\
  enclosedInMatchingQuotes text "o" = false /\
  enclosedInMatchingQuotes text "o'brien" = true.
Proof. repeat split; reflexivity. Qed.

(** C6, amended.  The extractor returns for every text.  A result is the
    leftmost non-empty run of non-quote characters that stands between two
    quote characters, each of them single or double and not necessarily
    the same one; the result is none exactly when the text has no such
    run. *)
Theorem extractQuotedValue_spec (text : string) :
  match extractQuotedValue text with
  | Some v =>
      exists before,
        quotedAt text before v /\
        forall before' v',
          quotedAt text before' v' -> String.length before <= String.length before'
  | None => forall before v, ~ quotedAt text before v
  end.
Proof.
  induction text as [|a t IH].
  - simpl. intros before v (q1 & q2 & after & E & _).
    destruct before; discriminate E.
  - rewrite extractQuotedValue_cons.
    destruct (matchQuotedHere (String a t)) as [v|] eqn:Eh.
    + exists "". split; [now apply matchQuotedHere_iff|].
      intros; simpl; lia.
    + assert (Hno : forall v', ~ quotedAt (String a t) "" v').
      { intros v' H. apply matchQuotedHere_iff in H. congruence. }
      destruct (extractQuotedValue t) as [v|].
      * destruct IH as (before & Hq & Hleft).
        exists (String a before). split; [now apply quotedAt_cons|].
        intros before' v' H'.
        destruct (quotedAt_head _ _ _ _ H') as [-> | [b' ->]].
        { now apply Hno in H'. }
        apply quotedAt_cons in H'. simpl. apply le_n_S. eapply Hleft; eauto.
      * intros before v H.
        destruct (quotedAt_head _ _ _ _ H) as [-> | [b' ->]].
        { now apply Hno in H. }
        apply quotedAt_cons in H. now apply IH in H.
Qed.

(** ** Quoted column references *)

Lemma append_assoc (a b c : string) : (a ++ b) ++ c = a ++ b ++ c.
Proof. induction a as [|x a IH]; simpl; [reflexivity | now rewrite IH]. Qed.

Lemma append_empty_r (a : string) : a ++ "" = a.
Proof. induction a as [|x a IH]; simpl; [reflexivity | now rewrite IH]. Qed.


Lemma aggregatePattern_Some (grouped : string -> string -> string)
  (plain : string -> string) (columns : list string) (q sql : string) :
  aggregatePattern grouped plain columns q = Some sql ->
  exists column,
    findColumnInQuestion columns q = Some column /\ column <> "" /\
    In column columns /\
    (sql = plain column \/
     exists groupCol,
       includesAny q ["group"; "by"] = true /\
       In groupCol columns /\ groupCol <> column /\ groupCol <> "" /\
       sql = grouped groupCol column).
Proof.
  unfold aggregatePattern. intros H.
  apply ifColumn_Some in H. destruct H as (column & Hc & Hne & H).
  exists column. split; [exact Hc|]. split; [exact Hne|].
  split; [now apply findColumnInQuestion_In in Hc|].
  apply orElse_Some in H. destruct H as [H | [_ [= <-]]]; [|now left].
  destruct (includesAny q ["group"; "by"]); [|discriminate].
  apply ifColumn_Some in H. destruct H as (g & Hg & Hgne & [= <-]).
  apply findSecondColumnInQuestion_In in Hg. destruct Hg as [Hin Hd].
  right. exists g. auto.
Qed.

Lemma extractQuotedValue_quotedAt (text v : string) :
  extractQuotedValue text = Some v -> exists before, quotedAt text before v.
Proof.
  induction text as [|a t IH].
  - discriminate.
  - rewrite extractQuotedValue_cons.
    destruct (matchQuotedHere (String a t)) as [w|] eqn:E.
    + intros [= <-]. exists "". now apply matchQuotedHere_iff.
    + intros H. destruct (IH H) as [before Hq].
      exists (String a before). now apply quotedAt_cons.
Qed.





Section Templates.

Variables (columns : list string) (q : string).


















End Templates.




(** The statements of the two scenarios with an aggregate, as the
    synthesizer writes them. *)
Lemma aggregate_statements :
  generateSQLWithPatterns
    {| currentData := Some (mkCurrentData "user_data" ["Sales"; "Region"] 4);
       db := None; SQL := true |}
    "average sales by region"
  = Ok (render [Keyword "SELECT "; ColumnRef "Region"; Keyword ", AVG(";
                ColumnRef "Sales"; Keyword ") as "; Alias "avg_" "Sales";
                Keyword " FROM "; TableName; Keyword " GROUP BY ";
                ColumnRef "Region"; Keyword " ORDER BY ";
                Alias "avg_" "Sales"; Keyword " DESC"]) /\
  generateSQLWithPatterns
    {| currentData := Some (mkCurrentData "user_data" ["Unit Price"] 4);
       db := None; SQL := true |}
    "average unit price"
  = Ok (render [Keyword "SELECT AVG("; ColumnRef "Unit Price";
                Keyword ") as "; Alias "average_" "Unit Price";
                Keyword " FROM "; TableName]).
Proof. split; reflexivity. Qed.

(** ** Comparison with zero *)

(** The scenario of the specification: the comparison block returns. *)
Lemma greater_than_100 :
  generateSQLWithPatterns
    {| currentData := Some (mkCurrentData "user_data" ["Price"] 4);
       db := None; SQL := true |}
    "find records where Price > 100"
  = Ok ("SELECT * FROM user_data WHERE " ++ quoted "Price" ++ " > 100 ORDER BY "
        ++ quoted "Price" ++ " DESC").
Proof. reflexivity. Qed.

(** The comparison block returns its statement when no earlier block's
    keyword occurs, the column is a non-empty name and the number is not
    zero. *)
Lemma greater_fires (this : DataExplorer) (data : CurrentData)
  (question col : string) (n : N) :
  currentData this = Some data ->
  let q := toLowerCase question in
  includesAny q
    ["chart"; "graph"; "plot"; "show"; "display"; "view"; "count";
     "average"; "avg"; "mean"; "sum"; "total"; "maximum"; "max"; "highest";
     "minimum"; "min"; "lowest"; "unique"; "distinct"] = false ->
  includesAny q ["greater than"; ">"; "more than"] = true ->
  findColumnInQuestion (schema data) q = Some col -> col <> "" ->
  extractNumber q = Some n -> n <> 0%N ->
  generateSQLWithPatterns this question = Ok (greaterSQL col n).
Proof.
  intros Hd q Hnone Hgt Hc Hne Hn Hn0.
  unfold generateSQLWithPatterns. rewrite Hd. fold q.
  assert (K : forall sub,
             incl sub ["chart"; "graph"; "plot"; "show"; "display"; "view";
                       "count"; "average"; "avg"; "mean"; "sum"; "total";
                       "maximum"; "max"; "highest"; "minimum"; "min";
                       "lowest"; "unique"; "distinct"] ->
             includesAny q sub = false)
    by (intros sub; now apply includesAny_sub).
  assert (K1 : includes q "count" = false)
    by (apply (includesAny_false _ _ Hnone); simpl; intuition).
  unfold patterns, chartPattern, showPattern, countPattern, averagePattern,
    sumPattern, maxPattern, minPattern, distinctPattern, greaterPattern.
  rewrite K1.
  repeat match goal with
    | |- context [includesAny q ?sub] =>
        rewrite (K sub) by (unfold incl; simpl; intuition)
    end.
  rewrite Hgt, Hc, Hn. simpl orElse.
  destruct col as [|a col]; [congruence|].
  unfold ifColumnAndValue, truthy, truthyNum.
  destruct (N.eqb_spec n 0); [congruence|]. reflexivity.
Qed.

(** C7.  With the single column Price, comparing against zero does not
    return the comparison statement: the question has the trigger, the
    column and the number 0, and the statement is the default one. *)
Theorem greater_than_zero :
  let this := {| currentData := Some (mkCurrentData "user_data" ["Price"] 4);
                 db := None; SQL := true |} in
  let q := toLowerCase "find records where Price > 0" in
  includesAny q ["greater than"; ">"; "more than"] = true /\
  findColumnInQuestion ["Price"] q = Some "Price" /\
  extractNumber q = Some 0%N /\
  greaterPattern ["Price"] q = None /\
  generateSQLWithPatterns this "find records where Price > 0"
    = Ok "SELECT * FROM user_data LIMIT 20".
Proof. repeat split; reflexivity. Qed.

(** ** Table creation *)

(** C8.  For a missing or an empty dataset, table creation throws the
    error No data found in file and leaves the object as it was: the
    schema registry and the database handle are the ones before the
    call, so no table has been created. *)
Theorem createTableFromData_empty (engine : Engine) (this : DataExplorer)
  (filename : string) :
  createTableFromData engine this None filename
    = (Throw (Error "No data found in file"), this) /\
  createTableFromData engine this (Some []) filename
    = (Throw (Error "No data found in file"), this).
Proof. split; reflexivity. Qed.

(** By contrast, a dataset with a first row replaces the registry once
    the engine is loaded, whatever the engine then does. *)
Lemma createTableFromData_registry (engine : Engine) (this : DataExplorer)
  (first : dataRow) (others : list dataRow) (filename : string) :
  SQL this = true ->
  currentData
    (snd (createTableFromData engine this (Some (first :: others)) filename))
  = Some {| tableName := "user_data"; schema := map fst first;
            rowCount := S (List.length others) |}.
Proof.
  intros H. unfold createTableFromData. rewrite H. cbv zeta.
  destruct (dbRun engine _); [|reflexivity].
  destruct (dbPrepare engine _); [|reflexivity].
  now destruct (insertRows engine _ _ _).
Qed.

(** ** Chart decision *)

Lemma someColumn_iff (test : jsValue -> bool) (results : list resultRow)
  (columns : list string) :
  someColumn test results columns = true <->
  exists col row,
    In col columns /\ In row results /\ test (getValue row col) = true.
Proof.
  unfold someColumn. rewrite existsb_exists. split.
  - intros (col & Hc & H). apply existsb_exists in H.
    destruct H as (row & Hr & H). now exists col, row.
  - intros (col & row & Hc & Hr & H). exists col. split; [exact Hc|].
    apply existsb_exists. now exists row.
Qed.

(** C9, as stated, fails: two rows and two columns, where column A holds
    a text and a numeric string and column B holds only nulls.  No column
    other than A has a numeric value, yet the code emits the bar chart. *)
Lemma determineChartType_counterexample :
  let results := [ [("A", VString "x"); ("B", VNull)];
                   [("A", VString "5"); ("B", VNull)] ] in
  determineChartType results ["A"; "B"]
    = Some {| type := "bar"; labelColumn := Some "A";
              valueColumn := Some "B" |} /\
  chartEligible_spec results ["A"; "B"] = false /\
  hasValue numericLike results "B" = false /\
  hasValue stringLike results "B" = false.
Proof. repeat split; reflexivity. Qed.

(** C9, amended.  The decision emits the bar-chart configuration, label
    column the first and value column the second, exactly when there are
    at least two rows, exactly two columns, some column holds a value
    that is not null and not numeric, and some column, possibly the same
    one, holds a value that is not null and numeric.  With fewer than two
    rows, or with a number of columns other than two, it emits nothing. *)
Theorem determineChartType_spec (results : list resultRow)
  (columns : list string) :
  (forall config,
     determineChartType results columns = Some config <->
     2 <= List.length results /\
     (exists c0 c1,
        columns = [c0; c1] /\
        config = {| type := "bar"; labelColumn := Some c0;
                    valueColumn := Some c1 |}) /\
     (exists col row,
        In col columns /\ In row results /\
        stringLike (getValue row col) = true) /\
     (exists col row,
        In col columns /\ In row results /\
        numericLike (getValue row col) = true)) /\
  (List.length results < 2 -> determineChartType results columns = None) /\
  (List.length columns <> 2 -> determineChartType results columns = None).
Proof.
  unfold determineChartType. split; [|split].
  - intros config. rewrite <- !someColumn_iff. split.
    + destruct (Nat.ltb_spec (List.length results) 2); [discriminate|].
      destruct (someColumn stringLike results columns); [|discriminate].
      destruct (someColumn numericLike results columns); [|discriminate].
      destruct columns as [|c0 [|c1 [|c2 rest]]]; simpl; try discriminate.
      intros [= <-]. repeat split; auto. now exists c0, c1.
    + intros (Hn & (c0 & c1 & -> & ->) & -> & ->).
      destruct (Nat.ltb_spec (List.length results) 2); [lia|]. reflexivity.
  - intros H. destruct (Nat.ltb_spec (List.length results) 2); [reflexivity|lia].
  - intros H. destruct (Nat.eqb_spec (List.length columns) 2); [contradiction|].
    rewrite andb_false_r. now destruct (List.length results <? 2)%nat.
Qed.

Lemma determineChartType_spec_witness :
  determineChartType
    [ [("Category", VString "Games"); ("count", VNumber 12)];
      [("Category", VString "Tools"); ("count", VNumber 7)] ]
    ["Category"; "count"]
  = Some {| type := "bar"; labelColumn := Some "Category";
            valueColumn := Some "count" |}.
Proof.
  apply (determineChartType_spec
           [ [("Category", VString "Games"); ("count", VNumber 12)];
             [("Category", VString "Tools"); ("count", VNumber 7)] ]
           ["Category"; "count"]).
  split; [simpl; lia|]. split; [now exists "Category", "count"|]. split.
  - exists "Category", [("Category", VString "Games"); ("count", VNumber 12)].
    simpl; auto.
  - exists "count", [("Category", VString "Games"); ("count", VNumber 12)].
    simpl; auto.
Defined.

(* ================================================================== *)
(** * Further properties *)

(** ** Lower-casing *)

Section LowerCase.

Lemma lowerChar_idem (c : ascii) : lowerChar (lowerChar c) = lowerChar c.
Proof. destruct c as [[] [] [] [] [] [] [] []]; reflexivity. Qed.

Lemma toLowerCase_idem (s : string) : toLowerCase (toLowerCase s) = toLowerCase s.
Proof.
  induction s as [|c s IH]; simpl; [reflexivity|].
  now rewrite lowerChar_idem, IH.
Qed.

Lemma toLowerCase_app (a b : string) :
  toLowerCase (a ++ b) = toLowerCase a ++ toLowerCase b.
Proof. induction a as [|c a IH]; simpl; [reflexivity | now rewrite IH]. Qed.

Lemma toLowerCase_length (s : string) :
  String.length (toLowerCase s) = String.length s.
Proof. induction s as [|c s IH]; simpl; [reflexivity | now rewrite IH]. Qed.

Lemma startsWith_lower (s p : string) :
  startsWith s p = true -> startsWith (toLowerCase s) (toLowerCase p) = true.
Proof.
  revert s. induction p as [|a p IH]; intros s; simpl; [reflexivity|].
  destruct s as [|b s]; simpl; [discriminate|].
  intros H. apply andb_true_iff in H. destruct H as [Hab Hs].
  apply Ascii.eqb_eq in Hab. subst b.
  now rewrite Ascii.eqb_refl, IH.
Qed.

Lemma includes_lower (s needle : string) :
  includes s needle = true ->
  includes (toLowerCase s) (toLowerCase needle) = true.
Proof.
  induction s as [|c s IH]; simpl; intros H.
  - rewrite orb_false_r in *. now apply (startsWith_lower "").
  - apply orb_true_iff in H. destruct H as [H | H].
    + apply (startsWith_lower (String c s)) in H. simpl in H. now rewrite H.
    + rewrite (IH H). apply orb_true_r.
Qed.

Lemma append_inj_length (a a' b b' : string) :
  a ++ b = a' ++ b' -> String.length a = String.length a' -> a = a' /\ b = b'.
Proof.
  revert a'. induction a as [|c a IH]; intros [|c' a']; simpl;
    try discriminate; intros E L.
  - auto.
  - injection E as -> E. injection L as L.
    destruct (IH a' E L) as [-> ->]. auto.
Qed.

(** A piece of a text that lower-casing leaves alone is itself left alone
    by lower-casing. *)
Lemma lower_piece (before piece after : string) :
  toLowerCase (before ++ piece ++ after) = before ++ piece ++ after ->
  toLowerCase piece = piece.
Proof.
  rewrite !toLowerCase_app. intros E.
  apply append_inj_length in E; [|apply toLowerCase_length].
  destruct E as [_ E].
  apply append_inj_length in E; [|apply toLowerCase_length].
  now destruct E.
Qed.

End LowerCase.

(** X1.  The synthesizer hands the resolvers the lower-cased question, and
    they lower-case it again; this changes nothing: both resolvers return
    for the lower-cased question what they return for the question as
    typed. *)
Theorem resolvers_ignore_case (columns : list string)
  (question excludeColumn : string) :
  findColumnInQuestion columns (toLowerCase question)
    = findColumnInQuestion columns question /\
  findSecondColumnInQuestion columns (toLowerCase question) excludeColumn
    = findSecondColumnInQuestion columns question excludeColumn.
Proof.
  unfold findColumnInQuestion, findSecondColumnInQuestion.
  now rewrite toLowerCase_idem.
Qed.

(** ** The value of a search *)

(** X2.  When the search block returns, its statement is the LIKE
    statement over a schema column, and the value inside the pattern is
    non-empty, holds no single or double quote, and is in lower case: it is
    cut from the lower-cased question, so capitals typed between the
    quotes are lost. *)
Theorem searchPattern_value (columns : list string) (question sql : string) :
  searchPattern columns (toLowerCase question) = Some sql ->
  exists column value,
    sql = "SELECT * FROM user_data WHERE " ++ quoted column ++
          " LIKE '%" ++ value ++ "%'" /\
    In column columns /\
    extractQuotedValue (toLowerCase question) = Some value /\
    value <> "" /\
    forallb notQuote value = true /\
    toLowerCase value = value.
Proof.
  unfold searchPattern. intros H.
  destruct (includesAny _ _); [|discriminate].
  apply ifColumn_Some in H. destruct H as (column & Hc & _ & H).
  apply ifColumn_Some in H. destruct H as (value & Hv & Hne & [= <-]).
  exists column, value. split; [reflexivity|].
  split; [now apply findColumnInQuestion_In in Hc|].
  split; [exact Hv|]. split; [exact Hne|].
  destruct (extractQuotedValue_quotedAt _ _ Hv)
    as (before & q1 & q2 & after & E & _ & _ & _ & Hq).
  split; [exact Hq|].
  apply (lower_piece (before ++ String q1 "") value (String q2 after)).
  replace ((before ++ String q1 "") ++ value ++ String q2 after)
    with (toLowerCase question).
  - apply toLowerCase_idem.
  - rewrite E, append_assoc. reflexivity.
Qed.

Lemma searchPattern_value_witness :
  exists column value,
    likeSQL "Owner" "alice" =
      "SELECT * FROM user_data WHERE " ++ quoted column ++
      " LIKE '%" ++ value ++ "%'" /\
    In column ["Owner"; "City"] /\
    extractQuotedValue (toLowerCase "Find 'Alice' please") = Some value /\
    value <> "" /\
    forallb notQuote value = true /\
    toLowerCase value = value.
Proof.
  apply (searchPattern_value ["Owner"; "City"] "Find 'Alice' please").
  reflexivity.
Defined.

(** ** Numbers in a question *)

Lemma matchDigits_Some (text m : string) :
  matchDigits text = Some m ->
  exists before after,
    text = before ++ m ++ after /\ forallb notDigit before = true /\
    m <> "" /\ forallb isDigit m = true /\ stopsDigits after.
Proof.
  induction text as [|c t IH]; simpl; [discriminate|].
  destruct (isDigit c) eqn:Ec.
  - intros [= <-]. destruct (span isDigit t) as [run after] eqn:E.
    destruct (span_split _ _ _ _ E) as (-> & Hrun & Hafter).
    exists "", after. simpl. rewrite Ec, Hrun.
    repeat split; auto. discriminate.
  - intros H. destruct (IH H) as (before & after & -> & Hb & Hm).
    exists (String c before), after. simpl. unfold notDigit at 1.
    rewrite Ec, Hb. auto.
Qed.

Lemma matchDigits_None (text : string) :
  matchDigits text = None -> forallb notDigit text = true.
Proof.
  induction text as [|c t IH]; simpl; [reflexivity|].
  unfold notDigit at 1. destruct (isDigit c); [discriminate|].
  intros H. now rewrite IH.
Qed.

Lemma span_all (p : ascii -> bool) (s : string) :
  forallb p s = true -> span p s = (s, "").
Proof.
  induction s as [|x s IH]; simpl; [reflexivity|].
  intros H. apply andb_true_iff in H. destruct H as [Hx Hs].
  now rewrite Hx, (IH Hs).
Qed.

Lemma matchDigits_found (before m after : string) :
  forallb notDigit before = true -> m <> "" -> forallb isDigit m = true ->
  stopsDigits after ->
  matchDigits (before ++ m ++ after) = Some m.
Proof.
  intros Hb Hne Hm Ha. induction before as [|c before IH]; simpl in *.
  - destruct m as [|d m]; [congruence|]. simpl in *.
    apply andb_true_iff in Hm. destruct Hm as [Hd Hm]. rewrite Hd.
    destruct after as [|a after].
    + now rewrite append_empty_r, (span_all isDigit m Hm).
    + simpl in Ha. now rewrite (span_stop isDigit m a after Hm Ha).
  - apply andb_true_iff in Hb. destruct Hb as [Hc Hb].
    unfold notDigit in Hc. apply negb_true_iff in Hc. rewrite Hc. now apply IH.
Qed.

(** X3.  The number extractor finds the leftmost digit run, at its full
    length: the result is none exactly when the text has no digit, and
    for a number below 2^53 (which the language holds exactly) the result
    is that number exactly when the text splits into a digit-free part, a
    non-empty run of digits with that decimal value, and a rest that does
    not start with a digit. *)
Theorem extractNumber_spec (text : string) :
  (extractNumber text = None <-> forallb notDigit text = true) /\
  forall n,
    exactInteger n ->
    (extractNumber text = Some n <->
     exists before digits after,
       text = before ++ digits ++ after /\
       forallb notDigit before = true /\
       digits <> "" /\ forallb isDigit digits = true /\
       stopsDigits after /\
       parseInt digits = n).
Proof.
  unfold extractNumber. split.
  - destruct (matchDigits text) as [m|] eqn:E.
    + split; [discriminate|]. intros H.
      destruct (matchDigits_Some _ _ E) as (before & after & -> & Hb & Hne & Hm & _).
      exfalso. destruct m as [|d m]; [congruence|].
      clear - H Hm. induction before as [|c before IH]; simpl in *.
      * apply andb_true_iff in Hm, H. destruct Hm as [Hd _], H as [Hn _].
        unfold notDigit in Hn. rewrite Hd in Hn. discriminate.
      * apply andb_true_iff in H. destruct H as [_ H]. now apply IH.
    + split; [|reflexivity]. intros _. now apply matchDigits_None.
  - intros n _. split.
    + destruct (matchDigits text) as [m|] eqn:E; [|discriminate].
      intros [= <-].
      destruct (matchDigits_Some _ _ E) as (before & after & H).
      exists before, m, after. intuition.
    + intros (before & digits & after & -> & Hb & Hne & Hd & Ha & <-).
      now rewrite (matchDigits_found before digits after Hb Hne Hd Ha).
Qed.

Lemma extractNumber_spec_witness :
  exactInteger 100 /\
  extractNumber "find records where price > 100" = Some 100%N.
Proof.
  split; [reflexivity|].
  apply (extractNumber_spec "find records where price > 100"); [reflexivity|].
  exists "find records where price > ", "100", "". repeat split. discriminate.
Defined.

Lemma parseDigits_acc (d : Decimal.uint) (acc : positive) :
  parseDigits (Npos acc) (NilEmpty.string_of_uint d)
    = Npos (Pos.of_uint_acc d acc).
Proof.
  revert acc. induction d; intros acc;
    cbn [NilEmpty.string_of_uint parseDigits Pos.of_uint_acc];
    [reflexivity|..];
    rewrite <- IHd; f_equal;
    match goal with
    | |- context [digitValue ?c] =>
        let v := eval vm_compute in (digitValue c) in
        change (digitValue c) with v
    end; lia.
Qed.

Lemma parseDigits_of_uint (d : Decimal.uint) :
  parseDigits 0 (NilEmpty.string_of_uint d) = N.of_uint d.
Proof.
  unfold N.of_uint.
  induction d; cbn [NilEmpty.string_of_uint parseDigits Pos.of_uint];
    [reflexivity | exact IHd |..]; apply (parseDigits_acc d).
Qed.

Lemma string_of_uint_digits (d : Decimal.uint) :
  forallb isDigit (NilEmpty.string_of_uint d) = true.
Proof. induction d; simpl; auto. Qed.

Lemma numToString_digits (n : N) :
  numToString n <> "" /\ forallb isDigit (numToString n) = true /\
  parseInt (numToString n) = n.
Proof.
  unfold numToString, parseInt. split; [|split].
  - destruct n as [|p]; [discriminate|]. simpl.
    pose proof (DecimalPos.Unsigned.to_uint_nonnil p) as H.
    destruct (Pos.to_uint p); [congruence|..]; discriminate.
  - apply string_of_uint_digits.
  - rewrite parseDigits_of_uint. apply DecimalN.Unsigned.of_to.
Qed.

(** X4.  Reading back a written number: when a number below 2^53 is
    written in decimal after a digit-free part of a text and is not
    followed by a digit, the number extractor returns that number. *)
Theorem extractNumber_numToString (before after : string) (n : N) :
  exactInteger n ->
  forallb notDigit before = true -> stopsDigits after ->
  extractNumber (before ++ numToString n ++ after) = Some n.
Proof.
  intros _ Hb Ha. unfold extractNumber.
  destruct (numToString_digits n) as (Hne & Hd & Hp).
  rewrite (matchDigits_found before (numToString n) after Hb Hne Hd Ha).
  now rewrite Hp.
Qed.

Lemma extractNumber_numToString_witness :
  exactInteger 25 /\
  extractNumber ("show top " ++ numToString 25 ++ " rows") = Some 25%N.
Proof.
  split; [reflexivity|].
  apply (extractNumber_numToString "show top " " rows" 25); reflexivity.
Defined.

(** X5.  The row limit is never zero: when the first/top alternative of
    the show block returns and the number in the question, if any, is
    below 2^53, its statement limits to that number if it is not zero, and
    to 10 if the question has no number or its number is zero. *)
Theorem showTop_limit (q sql : string) :
  showTop q = Some sql ->
  (forall m, extractNumber q = Some m -> exactInteger m) ->
  exists n,
    sql = "SELECT * FROM user_data LIMIT " ++ numToString n /\
    n <> 0%N /\ exactInteger n /\
    (extractNumber q = Some n \/
     (n = 10%N /\ (extractNumber q = None \/ extractNumber q = Some 0%N))).
Proof.
  unfold showTop. destruct (includesAny q _); [|discriminate].
  intros [= <-] Hexact. destruct (extractNumber q) as [n|] eqn:E; simpl.
  - destruct (N.eqb_spec n 0) as [-> | Hn]; simpl.
    + exists 10%N. repeat split; auto. discriminate.
    + exists n. repeat split; auto.
  - exists 10%N. repeat split; auto. discriminate.
Qed.

Lemma showTop_limit_witness :
  exists n,
    "SELECT * FROM user_data LIMIT 10"
      = "SELECT * FROM user_data LIMIT " ++ numToString n /\
    n <> 0%N /\ exactInteger n /\
    (extractNumber "show top 0 rows" = Some n \/
     (n = 10%N /\ (extractNumber "show top 0 rows" = None \/
                  extractNumber "show top 0 rows" = Some 0%N))).
Proof.
  apply (showTop_limit "show top 0 rows"); [reflexivity|].
  intros m [= <-]. reflexivity.
Defined.

(** ** Grouped aggregates *)

(** X6.  An average or a sum is never grouped by the column it
    aggregates: when the average (or sum) block returns, the aggregated
    column is the resolved column, a non-empty schema column, and the
    statement is either the plain aggregate or, for a question with group
    or by, the grouped aggregate over a different, non-empty schema
    column. *)
Theorem aggregate_group_differs (columns : list string) (q : string) :
  (forall sql,
     averagePattern columns q = Some sql ->
     exists column,
       findColumnInQuestion columns q = Some column /\ column <> "" /\
       In column columns /\
       (sql = avgSQL column \/
        exists groupCol,
          includesAny q ["group"; "by"] = true /\
          In groupCol columns /\ groupCol <> column /\ groupCol <> "" /\
          sql = groupedAvgSQL groupCol column)) /\
  (forall sql,
     sumPattern columns q = Some sql ->
     exists column,
       findColumnInQuestion columns q = Some column /\ column <> "" /\
       In column columns /\
       (sql = sumSQL column \/
        exists groupCol,
          includesAny q ["group"; "by"] = true /\
          In groupCol columns /\ groupCol <> column /\ groupCol <> "" /\
          sql = groupedSumSQL groupCol column)).
Proof.
  split; intros sql H.
  - unfold averagePattern in H.
    destruct (includesAny q ["average"; "avg"; "mean"]); [|discriminate].
    now apply aggregatePattern_Some.
  - unfold sumPattern in H.
    destruct (includesAny q ["sum"; "total"]); [|discriminate].
    now apply aggregatePattern_Some.
Qed.

(** ** The count block always returns *)

Lemma countPattern_returns (columns : list string) (q : string) :
  includes q "count" = true ->
  exists sql,
    countPattern columns q = Some sql /\
    (sql = countSQL \/ exists c, In c columns /\ sql = groupedCountSQL c).
Proof.
  intros H. unfold countPattern. rewrite H.
  destruct (if includesAny q ["group"; "by"] then _ else None) as [sql|] eqn:E.
  - exists sql. split; [reflexivity|]. right.
    destruct (includesAny q ["group"; "by"]); [|discriminate].
    apply ifColumn_Some in E. destruct E as (c & Hc & _ & [= <-]).
    exists c. split; [now apply findColumnInQuestion_In in Hc | reflexivity].
  - exists countSQL. split; [reflexivity | now left].
Qed.

(** X7.  A question whose lower-cased text contains count never reaches
    the later blocks: the statement is the total count, a grouped count
    over a schema column, or a statement of the show block (a row limit
    or the full table), whatever other keywords (average, sum, sort, ...)
    the question has. *)
Theorem count_preempts (this : DataExplorer) (data : CurrentData)
  (question : string) :
  currentData this = Some data ->
  includes (toLowerCase question) "count" = true ->
  exists sql,
    generateSQLWithPatterns this question = Ok sql /\
    (sql = "SELECT COUNT(*) as total_rows FROM user_data" \/
     (exists c, In c (schema data) /\ sql = groupedCountSQL c) \/
     (exists n, sql = "SELECT * FROM user_data LIMIT " ++ numToString n) \/
     sql = "SELECT * FROM user_data").
Proof.
  intros Hd Hcount. unfold generateSQLWithPatterns. rewrite Hd.
  set (q := toLowerCase question) in *. set (columns := schema data).
  assert (E : exists sql,
             chartPattern columns q <|> showPattern columns q
               <|> countPattern columns q = Some sql /\
             (sql = countSQL \/
              (exists c, In c columns /\ sql = groupedCountSQL c) \/
              (exists n, sql = limitSQL n) \/ sql = selectAllSQL)).
  { destruct (chartPattern columns q) as [sql|] eqn:E1.
    - exists sql. split; [reflexivity|]. right; left.
      unfold chartPattern in E1. returned. eauto.
    - destruct (showPattern columns q) as [sql|] eqn:E2.
      + exists sql. split; [reflexivity|].
        unfold showPattern, showChart, showBy, showTop, showAll in E2.
        returned; eauto 6.
      + destruct (countPattern_returns columns q Hcount) as (sql & E3 & H).
        exists sql. split; [exact E3|]. destruct H as [H | H]; auto. }
  destruct E as (sql & E & H). exists sql. split; [|exact H].
  unfold patterns. rewrite E. reflexivity.
Qed.

Lemma count_preempts_witness :
  exists sql,
    generateSQLWithPatterns
      {| currentData := Some (mkCurrentData "user_data" ["Discount"; "Region"] 5);
         db := None; SQL := true |}
      "Average discount by region" = Ok sql /\
    (sql = "SELECT COUNT(*) as total_rows FROM user_data" \/
     (exists c, In c ["Discount"; "Region"] /\ sql = groupedCountSQL c) \/
     (exists n, sql = "SELECT * FROM user_data LIMIT " ++ numToString n) \/
     sql = "SELECT * FROM user_data").
Proof.
  apply (count_preempts
           {| currentData :=
                Some (mkCurrentData "user_data" ["Discount"; "Region"] 5);
              db := None; SQL := true |}
           (mkCurrentData "user_data" ["Discount"; "Region"] 5)
           "Average discount by region"); reflexivity.
Defined.

(** ** A first column without a name *)

Lemma includes_empty (s : string) : includes s "" = true.
Proof. destruct s; reflexivity. Qed.

Lemma findColumnInQuestion_unnamed_first (others : list string) (q : string) :
  findColumnInQuestion ("" :: others) q = Some "".
Proof.
  unfold findColumnInQuestion. simpl find. unfold exactMatch at 1.
  change (toLowerCase "") with "". now rewrite includes_empty.
Qed.

Lemma patterns_unnamed_first (others : list string) (q : string) :
  patterns ("" :: others) q = patterns [] q.
Proof.
  unfold patterns, chartPattern, showPattern, showChart, showBy, countPattern,
    averagePattern, sumPattern, aggregatePattern, maxPattern, minPattern,
    distinctPattern, greaterPattern, lessPattern, sortPattern, searchPattern,
    byPattern.
  rewrite findColumnInQuestion_unnamed_first, findColumnInQuestion_nil.
  assert (V : forall v build,
            ifColumnAndValue (Some "") v build = ifColumnAndValue None v build)
    by (intros [n|] build; reflexivity).
  rewrite !V. reflexivity.
Qed.

(** X8.  When the first column of the schema has the empty name, no
    block that needs a column ever returns: the empty name occurs in
    every question, so the resolver returns it, and it counts as no
    column.  The synthesizer then behaves as on the empty schema, and
    its statement names no column, whatever the other columns are. *)
Theorem unnamed_first_column (this : DataExplorer) (data : CurrentData)
  (others : list string) (question : string) :
  currentData this = Some data ->
  schema data = "" :: others ->
  findColumnInQuestion (schema data) (toLowerCase question) = Some "" /\
  exists sql,
    generateSQLWithPatterns this question = Ok sql /\
    (sql = "SELECT COUNT(*) as total_rows FROM user_data" \/
     (exists n, sql = "SELECT * FROM user_data LIMIT " ++ numToString n) \/
     sql = "SELECT * FROM user_data" \/
     sql = "SELECT * FROM user_data LIMIT 20").
Proof.
  intros Hd Hs. rewrite Hs. split; [apply findColumnInQuestion_unnamed_first|].
  unfold generateSQLWithPatterns. rewrite Hd, Hs, patterns_unnamed_first.
  destruct (patterns [] (toLowerCase question)) as [sql|] eqn:E.
  - exists sql. split; [reflexivity|]. now apply patterns_empty_schema in E.
  - exists defaultSQL. split; [reflexivity|]. now right; right; right.
Qed.

Lemma unnamed_first_column_witness :
  findColumnInQuestion [""; "Region"; "Sales"] (toLowerCase "Chart by region")
    = Some "" /\
  exists sql,
    generateSQLWithPatterns
      {| currentData := Some (mkCurrentData "user_data" [""; "Region"; "Sales"] 2);
         db := None; SQL := true |} "Chart by region" = Ok sql /\
    (sql = "SELECT COUNT(*) as total_rows FROM user_data" \/
     (exists n, sql = "SELECT * FROM user_data LIMIT " ++ numToString n) \/
     sql = "SELECT * FROM user_data" \/
     sql = "SELECT * FROM user_data LIMIT 20").
Proof.
  apply (unnamed_first_column
           {| currentData :=
                Some (mkCurrentData "user_data" [""; "Region"; "Sales"] 2);
              db := None; SQL := true |}
           (mkCurrentData "user_data" [""; "Region"; "Sales"] 2)
           ["Region"; "Sales"] "Chart by region"); reflexivity.
Defined.

(** ** What table creation stores *)

Lemma orNull_not_empty (v : cell) : orNull v <> Some "".
Proof. destruct v as [[|a s]|]; discriminate. Qed.

Lemma getField_NoDup (row : dataRow) (k : string) (v : cell) :
  NoDup (map fst row) -> In (k, v) row -> getField row k = v.
Proof.
  unfold getField. induction row as [|[k' v'] row IH]; simpl; [contradiction|].
  intros Hnd Hin. inversion Hnd as [|? ? Hnotin Hnd']; subst.
  destruct (String.eqb_spec k' k) as [-> | Hne].
  - destruct Hin as [[= <-] | Hin]; [reflexivity|].
    exfalso. apply Hnotin. apply in_map_iff. now exists (k, v).
  - destruct Hin as [[= -> _] | Hin]; [congruence|]. now apply IH.
Qed.

Lemma stored_row_same_keys (row : dataRow) :
  NoDup (map fst row) ->
  rowValues (map fst row) row = map (fun kv => orNull (snd kv)) row.
Proof.
  intros Hnd. unfold rowValues. rewrite map_map. apply map_ext_in.
  intros [k v] Hin. simpl. now rewrite (getField_NoDup row k v Hnd Hin).
Qed.

Lemma insertRows_accepted (engine : Engine) (columns : list string)
  (data : list dataRow) (inserted : list (list cell)) :
  (forall row, In row data -> stmtRun engine (rowValues columns row) = Ok tt) ->
  insertRows engine columns data inserted
    = (Ok tt, (inserted ++ map (rowValues columns) data)%list).
Proof.
  revert inserted. induction data as [|row data IH]; intros inserted H; simpl.
  - now rewrite app_nil_r.
  - rewrite (H row (or_introl eq_refl)).
    rewrite IH by (intros r Hr; apply H; now right).
    now rewrite <- app_assoc.
Qed.

Lemma createTableFromData_accepted (engine : Engine) (this : DataExplorer)
  (first : dataRow) (others : list dataRow) (filename : string) :
  SQL this = true ->
  accepts engine (map fst first) (first :: others) ->
  createTableFromData engine this (Some (first :: others)) filename
    = (Ok tt,
       {| currentData :=
            Some {| tableName := "user_data"; schema := map fst first;
                    rowCount := S (List.length others) |};
          db := Some [ {| name := "user_data"; columnDefs := map fst first;
                          rows := map (rowValues (map fst first))
                                      (first :: others) |} ];
          SQL := true |}).
Proof.
  intros H (Hrun & Hprepare & Hrows). unfold createTableFromData.
  rewrite H. cbv zeta. rewrite Hrun, Hprepare.
  now rewrite (insertRows_accepted engine _ _ [] Hrows).
Qed.

(** X9.  When the engine is ready and accepts the statements and the
    rows of a dataset with a first row, the call succeeds: the registry
    holds the keys of the first row as the schema and the number of data
    rows as the row count; the database holds the one table user_data,
    declared from those keys, with one stored row per data row; every
    stored row has exactly one cell per schema column, and no stored cell
    is the empty text (an empty value is stored as null). *)
Theorem createTableFromData_stores (engine : Engine) (this : DataExplorer)
  (first : dataRow) (others : list dataRow) (filename : string) :
  SQL this = true ->
  accepts engine (map fst first) (first :: others) ->
  exists table,
    createTableFromData engine this (Some (first :: others)) filename
      = (Ok tt,
         {| currentData :=
              Some {| tableName := "user_data"; schema := map fst first;
                      rowCount := S (List.length others) |};
            db := Some [table]; SQL := true |}) /\
    name table = "user_data" /\
    columnDefs table = map fst first /\
    List.length (rows table) = S (List.length others) /\
    (forall stored, In stored (rows table) ->
                    List.length stored = List.length first) /\
    (forall stored, In stored (rows table) -> ~ In (Some "") stored).
Proof.
  intros H Ha. eexists. split.
  { apply (createTableFromData_accepted engine this first others filename H Ha). }
  cbn [name columnDefs rows].
  split; [reflexivity|]. split; [reflexivity|].
  split; [now rewrite length_map|]. split.
  - intros stored Hin. apply in_map_iff in Hin. destruct Hin as (row & <- & _).
    unfold rowValues. now rewrite !length_map.
  - intros stored Hin Hbad. apply in_map_iff in Hin.
    destruct Hin as (row & <- & _). apply in_map_iff in Hbad.
    destruct Hbad as (col & Hbad & _). now apply orNull_not_empty in Hbad.
Qed.

Lemma createTableFromData_stores_witness :
  exists table,
    createTableFromData
      {| dbRun := fun _ => Ok tt; dbPrepare := fun _ => Ok tt;
         stmtRun := fun _ => Ok tt |}
      {| currentData := None; db := None; SQL := true |}
      (Some [ [("Name", Some "Ann"); ("City", Some "")];
              [("Name", Some "Bob"); ("City", Some "Oslo")] ]) "people.csv"
      = (Ok tt,
         {| currentData :=
              Some {| tableName := "user_data"; schema := ["Name"; "City"];
                      rowCount := 2 |};
            db := Some [table]; SQL := true |}) /\
    name table = "user_data" /\
    columnDefs table = ["Name"; "City"] /\
    List.length (rows table) = 2 /\
    (forall stored, In stored (rows table) -> List.length stored = 2) /\
    (forall stored, In stored (rows table) -> ~ In (Some "") stored).
Proof.
  apply (createTableFromData_stores
           {| dbRun := fun _ => Ok tt; dbPrepare := fun _ => Ok tt;
              stmtRun := fun _ => Ok tt |}
           {| currentData := None; db := None; SQL := true |}
           [("Name", Some "Ann"); ("City", Some "")]
           [ [("Name", Some "Bob"); ("City", Some "Oslo")] ] "people.csv").
  - reflexivity.
  - repeat split.
Defined.

(** X10.  Values come back in column order: when the engine is ready and
    accepts the statements and the rows, and the keys of the first row are
    distinct, every data row that has the same keys in the same order is
    stored, at its own position, as its values in order, an empty text
    replaced by null. *)
Theorem createTableFromData_round_trip (engine : Engine)
  (this : DataExplorer) (first : dataRow) (others : list dataRow)
  (filename : string) (table : Table) (i : nat) (row : dataRow) :
  SQL this = true ->
  accepts engine (map fst first) (first :: others) ->
  NoDup (map fst first) ->
  db (snd (createTableFromData engine this (Some (first :: others)) filename))
    = Some [table] ->
  nth_error (first :: others) i = Some row ->
  map fst row = map fst first ->
  nth_error (rows table) i = Some (map (fun kv => orNull (snd kv)) row).
Proof.
  intros H Ha Hnd Hdb Hrow Hkeys.
  rewrite (createTableFromData_accepted engine this first others filename H Ha)
    in Hdb.
  set (stored := map (rowValues (map fst first)) (first :: others)) in Hdb.
  cbn [snd db] in Hdb. injection Hdb as <-. cbn [rows]. unfold stored.
  rewrite nth_error_map, Hrow. cbn [option_map]. f_equal.
  rewrite <- Hkeys. apply stored_row_same_keys. now rewrite Hkeys.
Qed.

Lemma createTableFromData_round_trip_witness :
  nth_error
    (rows {| name := "user_data"; columnDefs := ["Name"; "City"];
             rows := [ [Some "Ann"; None]; [Some "Bob"; Some "Oslo"] ] |}) 1
  = Some (map (fun kv => orNull (snd kv))
              [("Name", Some "Bob"); ("City", Some "Oslo")]).
Proof.
  apply (createTableFromData_round_trip
           {| dbRun := fun _ => Ok tt; dbPrepare := fun _ => Ok tt;
              stmtRun := fun _ => Ok tt |}
           {| currentData := None; db := None; SQL := true |}
           [("Name", Some "Ann"); ("City", Some "")]
           [ [("Name", Some "Bob"); ("City", Some "Oslo")] ] "people.csv").
  - reflexivity.
  - repeat split.
  - repeat constructor; simpl; intuition discriminate.
  - reflexivity.
  - reflexivity.
  - reflexivity.
Defined.

(** X11.  Asking after loading: before any dataset is loaded the
    synthesizer throws a type error; after a dataset with a first row has
    been loaded it returns, for every question, a statement whose column
    slots are all filled with keys of that first row. *)
Theorem ask_after_load (engine : Engine) (this : DataExplorer)
  (first : dataRow) (others : list dataRow) (filename question : string) :
  SQL this = true ->
  let loaded :=
    snd (createTableFromData engine this (Some (first :: others)) filename) in
  (currentData this = None ->
   generateSQLWithPatterns this question = Throw TypeError) /\
  exists sql,
    generateSQLWithPatterns loaded question = Ok sql /\
    shape (map fst first) sql.
Proof.
  intros H loaded. split.
  - intros Hn. unfold generateSQLWithPatterns. now rewrite Hn.
  - unfold generateSQLWithPatterns, loaded.
    rewrite (createTableFromData_registry engine this first others filename H).
    cbn [schema].
    destruct (patterns (map fst first) (toLowerCase question)) as [sql|] eqn:E.
    + exists sql. split; [reflexivity|]. now apply patterns_shape in E.
    + exists defaultSQL. split; [reflexivity | constructor].
Qed.

Lemma ask_after_load_witness :
  generateSQLWithPatterns {| currentData := None; db := None; SQL := true |}
    "count by city" = Throw TypeError /\
  exists sql,
    generateSQLWithPatterns
      (snd (createTableFromData
              {| dbRun := fun _ => Ok tt; dbPrepare := fun _ => Ok tt;
                 stmtRun := fun _ => Ok tt |}
              {| currentData := None; db := None; SQL := true |}
              (Some [ [("Name", Some "Ann"); ("City", Some "Rome")] ])
              "people.csv"))
      "count by city" = Ok sql /\
    shape ["Name"; "City"] sql.
Proof.
  destruct (ask_after_load
              {| dbRun := fun _ => Ok tt; dbPrepare := fun _ => Ok tt;
                 stmtRun := fun _ => Ok tt |}
              {| currentData := None; db := None; SQL := true |}
              [("Name", Some "Ann"); ("City", Some "Rome")] []
              "people.csv" "count by city" eq_refl) as [Hbefore Hafter].
  split; [now apply Hbefore | exact Hafter].
Defined.

(** X18.  Table creation is not undone when the engine refuses: for a
    dataset with a first row and a ready engine that throws on the
    statement creating the table, the call throws the engine's error, yet
    the registry already holds the new schema and row count and the
    database handle is a new database without any table; what was loaded
    before is gone. *)
Theorem createTableFromData_refused (engine : Engine) (this : DataExplorer)
  (first : dataRow) (others : list dataRow) (filename : string) (e : exn) :
  SQL this = true ->
  dbRun engine (createTableSQL (map fst first)) = Throw e ->
  createTableFromData engine this (Some (first :: others)) filename
    = (Throw e,
       {| currentData :=
            Some {| tableName := "user_data"; schema := map fst first;
                    rowCount := S (List.length others) |};
          db := Some []; SQL := true |}).
Proof.
  intros H Hrun. unfold createTableFromData. rewrite H. cbv zeta.
  now rewrite Hrun.
Qed.

Lemma createTableFromData_refused_witness :
  createTableFromData
    {| dbRun := fun _ => Throw (Error "duplicate column name: name");
       dbPrepare := fun _ => Ok tt; stmtRun := fun _ => Ok tt |}
    {| currentData := Some (mkCurrentData "user_data" ["Price"] 7);
       db := Some [ {| name := "user_data"; columnDefs := ["Price"];
                       rows := [[Some "3"]] |} ];
       SQL := true |}
    (Some [ [("Name", Some "Ann"); ("name", Some "ann")] ]) "people.csv"
  = (Throw (Error "duplicate column name: name"),
     {| currentData :=
          Some {| tableName := "user_data"; schema := ["Name"; "name"];
                  rowCount := 1 |};
        db := Some []; SQL := true |}).
Proof.
  apply (createTableFromData_refused
           {| dbRun := fun _ => Throw (Error "duplicate column name: name");
              dbPrepare := fun _ => Ok tt; stmtRun := fun _ => Ok tt |}
           {| currentData := Some (mkCurrentData "user_data" ["Price"] 7);
              db := Some [ {| name := "user_data"; columnDefs := ["Price"];
                              rows := [[Some "3"]] |} ];
              SQL := true |}
           [("Name", Some "Ann"); ("name", Some "ann")] [] "people.csv");
    reflexivity.
Defined.

(** ** File type dispatch *)

Lemma split_nonempty (sep : ascii) (s : string) : split sep s <> [].
Proof.
  destruct s as [|c t]; simpl; [discriminate|].
  destruct (Ascii.eqb c sep); [discriminate|].
  destruct (split sep t); discriminate.
Qed.

Lemma split_noDot (s : string) : noDot s = true -> split "." s = [s].
Proof.
  induction s as [|c t IH]; simpl; [reflexivity|].
  intros H. apply andb_true_iff in H. destruct H as [Hc Ht].
  apply negb_true_iff in Hc. now rewrite Hc, (IH Ht).
Qed.

Lemma last_split_cons (c : ascii) (t : string) :
  last (split "." (String c t)) "" =
  if Ascii.eqb c "." then last (split "." t) ""
  else match split "." t with
       | [_] => String c (last (split "." t) "")
       | _ => last (split "." t) ""
       end.
Proof.
  simpl split. pose proof (split_nonempty "." t) as Hne.
  destruct (Ascii.eqb c ".").
  - destruct (split "." t) as [|p ps]; [congruence | reflexivity].
  - destruct (split "." t) as [|p [|p' ps]]; [congruence | reflexivity..].
Qed.

Lemma split_two_pieces (stem ext : string) :
  exists p p' ps, split "." (stem ++ "." ++ ext) = p :: p' :: ps.
Proof.
  induction stem as [|c stem IH].
  - change ("" ++ "." ++ ext) with (String "." ext). simpl.
    pose proof (split_nonempty "." ext) as Hne.
    destruct (split "." ext) as [|p' ps]; [congruence|]. now exists "", p', ps.
  - change (String c stem ++ "." ++ ext) with (String c (stem ++ "." ++ ext)).
    destruct IH as (p & p' & ps & E). cbn [split]. rewrite E.
    destruct (Ascii.eqb c "."); eauto.
Qed.

Lemma last_split_after_dot (stem ext : string) :
  noDot ext = true -> last (split "." (stem ++ "." ++ ext)) "" = ext.
Proof.
  intros H. induction stem as [|c stem IH].
  - change ("" ++ "." ++ ext) with (String "." ext).
    rewrite last_split_cons. simpl. now rewrite (split_noDot ext H).
  - change (String c stem ++ "." ++ ext) with (String c (stem ++ "." ++ ext)).
    rewrite last_split_cons, IH.
    destruct (split_two_pieces stem ext) as (p & p' & ps & ->).
    now destruct (Ascii.eqb c ".").
Qed.

(** X12.  The file type is decided by the text after the last dot of the
    file name, or by the whole name when it has no dot, compared without
    regard to case: csv goes to the CSV parser, xlsx and xls to the Excel
    parser, and every other name is refused with the unsupported-type
    error, before any parsing. *)
Theorem parseFile_extension (stem ext : string) :
  noDot ext = true ->
  parseFile ext = parseFile (stem ++ "." ++ ext) /\
  (toLowerCase ext = "csv" -> parseFile (stem ++ "." ++ ext) = Ok parseCSV) /\
  (toLowerCase ext = "xlsx" \/ toLowerCase ext = "xls" ->
   parseFile (stem ++ "." ++ ext) = Ok parseExcel) /\
  (toLowerCase ext <> "csv" -> toLowerCase ext <> "xlsx" ->
   toLowerCase ext <> "xls" ->
   parseFile (stem ++ "." ++ ext)
     = Throw (Error "Unsupported file type. Please upload CSV or Excel files.")).
Proof.
  intros H. unfold parseFile.
  rewrite (last_split_after_dot stem ext H), (split_noDot ext H). simpl last.
  split; [reflexivity|]. split; [|split].
  - now intros ->.
  - now intros [-> | ->].
  - intros H1 H2 H3.
    apply String.eqb_neq in H1, H2, H3. now rewrite H1, H2, H3.
Qed.

Lemma parseFile_extension_witness :
  parseFile "CSV" = parseFile ("sales.2024" ++ "." ++ "CSV") /\
  parseFile ("sales.2024" ++ "." ++ "CSV") = Ok parseCSV.
Proof.
  destruct (parseFile_extension "sales.2024" "CSV" eq_refl) as (H1 & H2 & _).
  split; [exact H1 | now apply H2].
Defined.

(** ** Column hints *)

(** X13.  The hints for a schema are at most three; there is none for
    the empty schema; for every other schema the hint to show the top 10
    rows is among them, whatever the column names are. *)
Theorem generateColumnExamples_top10 (columns : list string) :
  List.length (generateColumnExamples columns) <= 3 /\
  (columns = [] -> generateColumnExamples columns = []) /\
  (columns <> [] ->
   In (quoted "Show me the top 10 rows") (generateColumnExamples columns)).
Proof.
  unfold generateColumnExamples.
  set (nameColumns := filter _ columns).
  set (categoryColumns := filter _ columns).
  split; [|split].
  - rewrite length_firstn. apply Nat.le_min_l.
  - intros ->. reflexivity.
  - intros Hne. destruct columns as [|c others]; [congruence|].
    clearbody nameColumns categoryColumns.
    destruct nameColumns, categoryColumns, others; simpl; auto.
Qed.

Lemma generateColumnExamples_top10_witness :
  In (quoted "Show me the top 10 rows")
     (generateColumnExamples ["Product Name"; "Type"; "Price"; "Status"]).
Proof.
  apply (generateColumnExamples_top10
           ["Product Name"; "Type"; "Price"; "Status"]).
  discriminate.
Defined.

(** ** The backend and its fallback *)

Lemma startsWith_app_l (s p rest : string) :
  startsWith s p = true -> startsWith (s ++ rest) p = true.
Proof.
  revert s. induction p as [|x p IH]; intros s; [reflexivity|].
  destruct s as [|y s]; simpl; [discriminate|].
  intros H. apply andb_true_iff in H. destruct H as [-> H].
  now rewrite (IH s H).
Qed.

Lemma includes_app_l (a b needle : string) :
  includes a needle = true -> includes (a ++ b) needle = true.
Proof.
  induction a as [|c a IH]; simpl.
  - rewrite orb_false_r. destruct needle; [|discriminate].
    intros _. apply includes_empty.
  - intros H. apply orb_true_iff in H. destruct H as [H | H].
    + apply (startsWith_app_l (String c a) needle b) in H.
      simpl in H. now rewrite H.
    + rewrite (IH H). apply orb_true_r.
Qed.

Lemma shape_from (columns : list string) (sql : string) :
  shape columns sql -> includes (toLowerCase sql) "from" = true.
Proof.
  intros H. apply (includes_lower sql "FROM").
  destruct H;
    unfold groupedCountSQL, limitSQL, selectAllSQL, countSQL, groupedAvgSQL,
      avgSQL, groupedSumSQL, sumSQL, maxSQL, minSQL, distinctSQL,
      greaterSQL, lessSQL, sortSQL, likeSQL, defaultSQL;
    repeat first [ apply includes_app_l; reflexivity | apply includes_later ].
Qed.

Lemma stripPrefix_Some (p s rest : string) :
  stripPrefix p s = Some rest -> s = p ++ rest.
Proof.
  revert s. induction p as [|a p IH]; intros s; simpl.
  - now intros [= ->].
  - destruct s as [|b s]; [discriminate|].
    destruct (Ascii.eqb_spec a b) as [-> | _]; [|discriminate].
    intros H. now rewrite (IH s H).
Qed.

Lemma startsWith_stripPrefix (s p : string) :
  startsWith s p = true -> exists rest, stripPrefix p s = Some rest.
Proof.
  revert s. induction p as [|a p IH]; intros s; simpl; [eauto|].
  destruct s as [|b s]; [discriminate|].
  intros H. apply andb_true_iff in H. destruct H as [-> H]. now apply IH.
Qed.

Lemma upcaseSelect_lower (s : string) :
  toLowerCase (upcaseSelect s) = toLowerCase s.
Proof.
  unfold upcaseSelect.
  destruct (stripPrefix "SELECT" s) as [rest|] eqn:E1.
  - apply stripPrefix_Some in E1. now subst s.
  - destruct (stripPrefix "select" s) as [rest|] eqn:E2; [|reflexivity].
    apply stripPrefix_Some in E2. now subst s.
Qed.

Lemma upcaseSelect_starts (s : string) :
  startsWith s "select" = true \/ startsWith s "SELECT" = true ->
  startsWith (upcaseSelect s) "SELECT" = true.
Proof.
  intros H. unfold upcaseSelect.
  destruct (stripPrefix "SELECT" s) as [rest|] eqn:E1; [reflexivity|].
  destruct H as [H | H]; apply startsWith_stripPrefix in H;
    destruct H as [rest H]; [|congruence].
  now rewrite H.
Qed.

Lemma cleanGenerated_has_from (generated_text : string) :
  includes (toLowerCase (cleanGenerated generated_text)) "from" = true.
Proof.
  unfold cleanGenerated. rewrite upcaseSelect_lower.
  destruct (includes (toLowerCase (trim generated_text)) "from") eqn:E;
    simpl negb; cbv iota.
  - now rewrite upcaseSelect_lower.
  - rewrite toLowerCase_app. apply includes_later. reflexivity.
Qed.

(** X14.  The clean-up of the generated text always yields a statement
    that contains from, in some mix of cases: the clause FROM user_data is
    appended exactly when the trimmed text has none.  A trimmed text that
    starts with select or SELECT yields a statement that starts with
    SELECT. *)
Theorem cleanGenerated_from (generated_text : string) :
  includes (toLowerCase (cleanGenerated generated_text)) "from" = true /\
  (includes (toLowerCase (trim generated_text)) "from" = true ->
   cleanGenerated generated_text = upcaseSelect (trim generated_text)) /\
  (includes (toLowerCase (trim generated_text)) "from" = false ->
   cleanGenerated generated_text
     = upcaseSelect (trim generated_text) ++ " FROM user_data") /\
  (startsWith (trim generated_text) "select" = true \/
   startsWith (trim generated_text) "SELECT" = true ->
   startsWith (cleanGenerated generated_text) "SELECT" = true).
Proof.
  split; [apply cleanGenerated_has_from|].
  unfold cleanGenerated. rewrite upcaseSelect_lower.
  set (t := trim generated_text).
  destruct (includes (toLowerCase t) "from") eqn:E; simpl negb; cbv iota.
  - split; [reflexivity|]. split; [discriminate|]. apply upcaseSelect_starts.
  - split; [discriminate|]. split; [reflexivity|].
    intros H. apply startsWith_app_l. now apply upcaseSelect_starts.
Qed.

(** X15.  With the backend in front, a question is still always
    answered once a schema is loaded: whatever the backend is and does,
    the result is a statement, and it contains from in some mix of cases.
    When the model is not loaded or there is no pipeline, and when the
    pipeline throws, the statement is the one of the rules. *)
Theorem generateSQLFromQuestion_fallback (ai : Backend) (this : DataExplorer)
  (data : CurrentData) (question : string) :
  currentData this = Some data ->
  (exists sql,
     generateSQLFromQuestion ai this question = Ok sql /\
     includes (toLowerCase sql) "from" = true) /\
  (modelLoaded ai = false \/ pipeline ai = None ->
   generateSQLFromQuestion ai this question
     = generateSQLWithPatterns this question) /\
  (forall run e,
     pipeline ai = Some run ->
     run (prompt question (schema data)) = Throw e ->
     generateSQLFromQuestion ai this question
       = generateSQLWithPatterns this question) /\
  (forall run generated_text,
     modelLoaded ai = true -> pipeline ai = Some run ->
     run (prompt question (schema data)) = Ok generated_text ->
     generateSQLFromQuestion ai this question
       = Ok (cleanGenerated generated_text)).
Proof.
  intros Hd.
  assert (P : exists sql,
             generateSQLWithPatterns this question = Ok sql /\
             includes (toLowerCase sql) "from" = true).
  { unfold generateSQLWithPatterns. rewrite Hd.
    destruct (patterns (schema data) (toLowerCase question)) as [sql|] eqn:E.
    - exists sql. split; [reflexivity|].
      apply (shape_from (schema data)). now apply patterns_shape in E.
    - exists defaultSQL. split; [reflexivity|].
      apply (shape_from (schema data)). constructor. }
  unfold generateSQLFromQuestion, generateSQLWithAI. rewrite Hd.
  split; [|split; [|split]].
  - destruct (modelLoaded ai); simpl; [|exact P].
    destruct (pipeline ai) as [run|]; [|exact P].
    destruct (run (prompt question (schema data))) as [text|e]; [|exact P].
    exists (cleanGenerated text). split; [reflexivity|].
    apply cleanGenerated_has_from.
  - intros [-> | ->]; [reflexivity|]. now rewrite andb_false_r.
  - intros run e -> ->. now destruct (modelLoaded ai).
  - intros run text -> -> ->. reflexivity.
Qed.

Lemma generateSQLFromQuestion_fallback_witness :
  generateSQLFromQuestion
    {| modelLoaded := true;
       pipeline := Some (fun _ => Throw (Error "backend unreachable")) |}
    {| currentData := Some (mkCurrentData "user_data" ["Price"] 3);
       db := None; SQL := true |}
    "How many rows? Count them"
  = Ok "SELECT COUNT(*) as total_rows FROM user_data".
Proof.
  destruct (generateSQLFromQuestion_fallback
              {| modelLoaded := true;
                 pipeline := Some (fun _ => Throw (Error "backend unreachable")) |}
              {| currentData := Some (mkCurrentData "user_data" ["Price"] 3);
                 db := None; SQL := true |}
              (mkCurrentData "user_data" ["Price"] 3)
              "How many rows? Count them" eq_refl)
    as (_ & _ & Hthrow & _).
  rewrite (Hthrow _ (Error "backend unreachable") eq_refl eq_refl).
  reflexivity.
Defined.

(** ** Chart labels *)




(** ** The result table *)


